(** * Budget Scaling Engine of the CFO agent

    A shallow embedding of the two services that make up the engine and of
    the internal routes of the service,

      - [RevenueTracker]  (src/services/revenue-tracker.ts): revenue fetch,
        scale factor, budget limits, revenue report;
      - [BudgetUpdater]   (the budget updater service): the daily
        reconciliation [updateBudgets] and its caller [runDailyUpdate];
      - [InternalRoutes]  (src/routes/internal.ts): the API-key hook, the
        Meta Graph proxy and the lead and ticket intake,

    followed by the properties the specification states about them and by
    further properties read off the code.

    Modelling conventions.

      - The engine is embedded twice.  In the first embedding a JavaScript
        [number] is an exact rational ([Q]): it covers the finite values and
        leaves the binary rounding of [/] and [*], [NaN] and the infinities
        out; the bounds, the order and the control flow of the engine are
        stated on it.  The second embedding ([Binary64]) computes as the
        runtime does, in IEEE 754 doubles, and lets any value be thrown;
        what depends on the rounding of a product or on the thrown value is
        stated on it.  [Math.round] and [Math.ceil] are exact on the value
        they receive, as in the language definition.
      - The fields of the analytics payload are numbers or absent, as the
        [RevenueData] interface of the source types them; a payload with
        fields of another type is outside both embeddings.
      - [async] methods run in the monad [Js]: a computation receives the
        process state ([World]: the updater's [lastUpdateDate] and what was
        written to the console) and completes normally or by throwing.
        [try]/[catch] is [try_catch]; it does not roll the state back.
      - What the runtime provides (the HTTP client, the environment
        variable, the clock, the number formatting routines) is a [Host]
        value the methods are run against.
      - The private fields of [RevenueTracker] have initialisers and are
        never assigned, so they are constants of the module. *)

From Stdlib Require Import ZArith QArith Qround Qminmax Lqa List String Ascii Bool Lia.
From Stdlib Require Import DecimalString.
From Stdlib Require Import Floats.SpecFloat.
Import ListNotations.

Open Scope string_scope.
Open Scope Q_scope.

(** ** JavaScript numbers *)

Definition number : Type := Q.

(** [a < b] and [a <= b], [a > b], [a >= b] on numbers. *)
Definition num_lt (a b : number) : bool := negb (Qle_bool b a).
Definition num_le (a b : number) : bool := Qle_bool a b.
Definition num_gt (a b : number) : bool := num_lt b a.
Definition num_ge (a b : number) : bool := num_le b a.

(** [Math.round]: the integer nearest to [x], ties towards +infinity. *)
Definition Math_round (x : number) : Z := Qfloor (x + (1 # 2)).

(** [Math.ceil]. *)
Definition Math_ceil (x : number) : Z := Qceiling x.

(** [x || 0] where [x] is a number that may be absent ([undefined]):
    [undefined] and [0] are falsy. *)
Definition or_zero (x : option number) : number :=
  match x with
  | Some v => if Qeq_bool v 0 then 0 else v
  | None => 0
  end.

(** [a || b] where [a] is a string that may be absent: [undefined] and the
    empty string are falsy. *)
Definition or_string (a : option string) (b : string) : string :=
  match a with
  | Some s => if String.eqb s "" then b else s
  | None => b
  end.

(** [s.split(sep)[0]]: the part of [s] before the first [sep], all of [s]
    when [sep] does not occur. *)
Fixpoint split_head (sep : ascii) (s : string) : string :=
  match s with
  | EmptyString => EmptyString
  | String c rest => if Ascii.eqb c sep then EmptyString
                     else String c (split_head sep rest)
  end.

(** ** Completions, the process state and the [Js] monad *)

Record JsError : Type := mkError { message : string }.

Inductive Completion (A : Type) : Type :=
| Normal (a : A)
| Thrown (e : JsError).
Arguments Normal {A} a.
Arguments Thrown {A} e.

Inductive ConsoleLine : Type :=
| ConsoleLog (text : string)
| ConsoleError (text : string).

(** The state of the process: the [lastUpdateDate] field of the one
    [BudgetUpdater] instance, and the console output so far (oldest
    first). *)
Record World : Type := mkWorld {
  lastUpdateDate : option string;
  console : list ConsoleLine
}.

Definition Js (A : Type) : Type := World -> Completion A * World.

Definition ret {A} (a : A) : Js A := fun w => (Normal a, w).

Definition throw {A} (e : JsError) : Js A := fun w => (Thrown e, w).

Definition bind {A B} (c : Js A) (k : A -> Js B) : Js B :=
  fun w => match c w with
           | (Normal a, w') => k a w'
           | (Thrown e, w') => (Thrown e, w')
           end.

Definition try_catch {A} (body : Js A) (handler : JsError -> Js A) : Js A :=
  fun w => match body w with
           | (Normal a, w') => (Normal a, w')
           | (Thrown e, w') => handler e w'
           end.

Notation "x <- c ;; k" := (bind c (fun x => k))
  (at level 61, c at next level, right associativity).
Notation "c ;;; k" := (bind c (fun _ => k))
  (at level 61, right associativity).

Definition console_log (text : string) : Js unit :=
  fun w => (Normal tt, mkWorld (lastUpdateDate w) (console w ++ [ConsoleLog text])).

Definition console_error (text : string) : Js unit :=
  fun w => (Normal tt, mkWorld (lastUpdateDate w) (console w ++ [ConsoleError text])).

Definition read_lastUpdateDate : Js (option string) :=
  fun w => (Normal (lastUpdateDate w), w).

Definition write_lastUpdateDate (d : string) : Js unit :=
  fun w => (Normal tt, mkWorld (Some d) (console w)).

(** ** The host *)

(** The body of a response as the fetcher reads it: [null]/[undefined]
    (reading a property of it throws), or any other value, whose
    [financial] property is an object or is absent. *)
Record Financial : Type := mkFinancial {
  mrr : option number;
  dealioMRR : option number;
  quotelyMRR : option number;
  shopflowMRR : option number;
  shoplinkMRR : option number;
  fin_oneTimeRevenue : option number
}.

Inductive ResponseData : Type :=
| DataNullish
| DataValue (financial : option Financial).

(** What [axios.get] does: the promise rejects (transport failure, timeout)
    or resolves with a response of any status ([validateStatus] accepts
    them all). *)
Record AxiosResponse : Type := mkResponse {
  status : Z;
  data : ResponseData
}.

Inductive AxiosOutcome : Type :=
| Rejected (e : JsError)
| Resolved (response : AxiosResponse).

Record Host : Type := mkHost {
  axios_get : string -> AxiosOutcome;
  SUPER_ADMIN_URL : option string;
  Date_toISOString : string;
  Number_toString : number -> string;
  Number_toFixed : number -> nat -> string;
  Number_toLocaleString : number -> string
}.

(** ** Data model *)

Record RevenueByProduct : Type := mkRevenueByProduct {
  dealio : number;
  quotely : number;
  shopflow : number;
  shoplink : number
}.

Record RevenueData : Type := mkRevenueData {
  totalMRR : number;
  revenueByProduct : RevenueByProduct;
  oneTimeRevenue : number;
  totalRevenue : number
}.

(** Limits are what [Math.round] returns: integers. *)
Record CeoLimits : Type := mkCeo { maxSpending : Z }.
Record CfoLimits : Type := mkCfo { maxCostOptimization : Z; maxBudgetAllocation : Z }.
Record CtoLimits : Type := mkCto { maxInfrastructureCost : Z }.

Record BudgetLimits : Type := mkBudgetLimits {
  ceo : CeoLimits;
  cfo : CfoLimits;
  cto : CtoLimits
}.

(** ** RevenueTracker *)

Module RevenueTracker.

Definition baseRevenue : number := 1000.
Definition maxScaleFactor : number := 10.
Definition minScaleFactor : number := 1.

Definition baseBudgets : BudgetLimits :=
  mkBudgetLimits (mkCeo 300) (mkCfo 150 300) (mkCto 150).

Definition calculateScaleFactor (monthlyRevenue : number) : number :=
  let scaleFactor := monthlyRevenue / baseRevenue in
  if num_gt scaleFactor maxScaleFactor then maxScaleFactor
  else if num_lt scaleFactor minScaleFactor then minScaleFactor
  else scaleFactor.

Definition calculateBudgetLimits (monthlyRevenue : number) : BudgetLimits :=
  let scaleFactor := calculateScaleFactor monthlyRevenue in
  mkBudgetLimits
    (mkCeo (Math_round (inject_Z (maxSpending (ceo baseBudgets)) * scaleFactor)))
    (mkCfo (Math_round (inject_Z (maxCostOptimization (cfo baseBudgets)) * scaleFactor))
           (Math_round (inject_Z (maxBudgetAllocation (cfo baseBudgets)) * scaleFactor)))
    (mkCto (Math_round (inject_Z (maxInfrastructureCost (cto baseBudgets)) * scaleFactor))).

Definition defaultSuperAdminUrl : string := "https://super-admin.doublevision.company".

Definition zeroRevenue : RevenueData :=
  mkRevenueData 0 (mkRevenueByProduct 0 0 0 0) 0 0.

(** [await axios.get(...)]. *)
Definition await_get (h : Host) (url : string) : Js AxiosResponse :=
  fun w => match axios_get h url with
           | Rejected e => (Thrown e, w)
           | Resolved response => (Normal response, w)
           end.

(** The [TypeError] of reading a property of [null] or [undefined]; the
    wording is the engine's, which names the one or the other (the binary64
    model below tells them apart). *)
Definition nullish_read_error : JsError :=
  mkError "Cannot read properties of undefined (reading 'financial')".

(** [analytics.financial || {}], after [analytics = response.data]. *)
Definition read_financial (data : ResponseData) : Js Financial :=
  match data with
  | DataNullish => throw nullish_read_error
  | DataValue (Some f) => ret f
  | DataValue None => ret (mkFinancial None None None None None None)
  end.

Definition fetchRevenueData (h : Host) (superAdminUrl : option string) : Js RevenueData :=
  let url := or_string superAdminUrl (or_string (SUPER_ADMIN_URL h) defaultSuperAdminUrl) in
  try_catch
    (response <- await_get h (url ++ "/api/analytics") ;;
     (if negb (Z.eqb (status response) 200)
      then throw (mkError ("Failed to fetch analytics: "
                           ++ Number_toString h (inject_Z (status response))))
      else ret tt) ;;;
     financial <- read_financial (data response) ;;
     let totalMRR := or_zero (mrr financial) in
     let revenueByProduct :=
       mkRevenueByProduct (or_zero (dealioMRR financial))
                          (or_zero (quotelyMRR financial))
                          (or_zero (shopflowMRR financial))
                          (or_zero (shoplinkMRR financial)) in
     let oneTimeRevenue := or_zero (fin_oneTimeRevenue financial) in
     let totalRevenue := totalMRR + oneTimeRevenue in
     ret (mkRevenueData totalMRR revenueByProduct oneTimeRevenue totalRevenue))
    (fun error =>
       console_error ("Error fetching revenue data: " ++ message error) ;;;
       ret zeroRevenue).

Record RevenueReport : Type := mkReport {
  revenue : RevenueData;
  scaleFactor : number;
  budgets : BudgetLimits;
  recommendations : list string
}.

Definition generateRevenueReport (h : Host) : Js RevenueReport :=
  revenue <- fetchRevenueData h None ;;
  let scaleFactor := calculateScaleFactor (totalMRR revenue) in
  let budgets := calculateBudgetLimits (totalMRR revenue) in
  let recommendations :=
    if num_lt (totalMRR revenue) baseRevenue then
      [ "Revenue below base threshold. Maintain conservative budgets.";
        "Focus on revenue-generating activities." ]
    else if num_ge scaleFactor maxScaleFactor then
      [ "Revenue at maximum scaling threshold. Budgets capped at 10x.";
        "Consider strategic investments beyond base scaling." ]
    else
      let nextMilestone := inject_Z (Math_ceil (totalMRR revenue / 1000)) * 1000 in
      [ "Current scale: " ++ Number_toFixed h scaleFactor 1
        ++ "x. Next milestone: $" ++ Number_toLocaleString h nextMilestone
        ++ " MRR for " ++ Number_toFixed h (nextMilestone / baseRevenue) 1
        ++ "x scaling." ] in
  ret (mkReport revenue scaleFactor budgets recommendations).

End RevenueTracker.

(** ** BudgetUpdater *)

Module BudgetUpdater.

Record UpdateResult : Type := mkResult {
  success : bool;
  budgets : BudgetLimits;
  scaleFactor : number;
  revenue : number;
  error : option string
}.

(** [this.lastUpdateDate === today]. *)
Definition same_date (stored : option string) (today : string) : bool :=
  match stored with
  | Some d => String.eqb d today
  | None => false
  end.

(** [updateBudgets], with the call [this.revenueTracker.generateRevenueReport()]
    as the computation [tracker_report]. *)
Definition updateBudgets_body (tracker_report : Js RevenueTracker.RevenueReport)
    (h : Host) : Js UpdateResult :=
  try_catch
    (report <- tracker_report ;;
     let budgets := RevenueTracker.budgets report in
     let scaleFactor := RevenueTracker.scaleFactor report in
     let revenue := totalMRR (RevenueTracker.revenue report) in
     let today := split_head "T" (Date_toISOString h) in
     stored <- read_lastUpdateDate ;;
     if same_date stored today && num_le scaleFactor (11 # 10) then
       ret (mkResult true budgets scaleFactor revenue None)
     else
       console_log "📊 Budget Update Recommended:" ;;;
       console_log ("   Revenue: $" ++ Number_toLocaleString h revenue ++ "/month") ;;;
       console_log ("   Scale Factor: " ++ Number_toFixed h scaleFactor 2 ++ "x") ;;;
       console_log ("   CEO Max Spending: $"
                    ++ Number_toString h (inject_Z (maxSpending (ceo budgets)))) ;;;
       console_log ("   CFO Cost Optimization: $"
                    ++ Number_toString h (inject_Z (maxCostOptimization (cfo budgets)))) ;;;
       console_log ("   CFO Budget Allocation: $"
                    ++ Number_toString h (inject_Z (maxBudgetAllocation (cfo budgets)))) ;;;
       console_log ("   CTO Infrastructure: $"
                    ++ Number_toString h (inject_Z (maxInfrastructureCost (cto budgets)))) ;;;
       write_lastUpdateDate today ;;;
       ret (mkResult true budgets scaleFactor revenue None))
    (fun error =>
       ret (mkResult false
              (mkBudgetLimits (mkCeo 300) (mkCfo 150 300) (mkCto 150))
              1 0 (Some (message error)))).

(** The updater as constructed: its tracker is a [RevenueTracker]. *)
Definition updateBudgets (h : Host) : Js UpdateResult :=
  updateBudgets_body (RevenueTracker.generateRevenueReport h) h.

(** [console.error(label, value)] where [value] may be [undefined]. *)
Definition show_optional (value : option string) : string :=
  match value with
  | Some s => s
  | None => "undefined"
  end.

Definition runDailyUpdate_body (tracker_report : Js RevenueTracker.RevenueReport)
    (h : Host) : Js unit :=
  console_log "🔄 Running daily budget update..." ;;;
  result <- updateBudgets_body tracker_report h ;;
  if success result then
    console_log "✅ Budgets updated successfully" ;;;
    console_log ("   Scale Factor: " ++ Number_toFixed h (scaleFactor result) 2 ++ "x") ;;;
    console_log ("   Revenue: $" ++ Number_toLocaleString h (revenue result) ++ "/month")
  else
    console_error ("❌ Budget update failed: " ++ show_optional (error result)).

Definition runDailyUpdate (h : Host) : Js unit :=
  runDailyUpdate_body (RevenueTracker.generateRevenueReport h) h.

End BudgetUpdater.

(** ** Specification-side definitions *)

(** [clamp x lo hi]: [x] brought into the interval [lo, hi]. *)
Definition clamp (x lo hi : Q) : Q := Qmax lo (Qmin x hi).

(** [n] is [x] rounded half up: the integer nearest to [x], the upper one
    when two integers are equally near. *)
Definition rounds_half_up (x : Q) (n : Z) : Prop :=
  inject_Z n - (1 # 2) <= x /\ x < inject_Z n + (1 # 2).

(** [a] is at most [b], limit by limit. *)
Definition limits_le (a b : BudgetLimits) : Prop :=
  (maxSpending (ceo a) <= maxSpending (ceo b))%Z /\
  (maxCostOptimization (cfo a) <= maxCostOptimization (cfo b))%Z /\
  (maxBudgetAllocation (cfo a) <= maxBudgetAllocation (cfo b))%Z /\
  (maxInfrastructureCost (cto a) <= maxInfrastructureCost (cto b))%Z.

(** [limit] lies between its base limit and ten times that. *)
Definition within_floor_and_ceiling (base limit : Z) : Prop :=
  (base <= limit)%Z /\ (limit <= base * 10)%Z.

(** A missing field read as 0. *)
Definition field_or_zero (x : option number) : number :=
  match x with
  | Some v => v
  | None => 0
  end.

(** The address [fetchRevenueData] requests. *)
Definition analytics_url (h : Host) (superAdminUrl : option string) : string :=
  or_string superAdminUrl
    (or_string (SUPER_ADMIN_URL h) RevenueTracker.defaultSuperAdminUrl)
  ++ "/api/analytics".

(** A soft failure of the fetch: the request was rejected, or answered with
    a status other than 200. *)
Definition soft_failure (o : AxiosOutcome) : Prop :=
  match o with
  | Rejected _ => True
  | Resolved response => status response <> 200%Z
  end.

(** The calendar date of an invocation. *)
Definition today_of (h : Host) : string := split_head "T" (Date_toISOString h).

(** The "update applied" signal of a result: its one boolean. *)
Definition signals_apply (r : BudgetUpdater.UpdateResult) : bool :=
  BudgetUpdater.success r.

(** The world after one more line of [console.error]. *)
Definition with_error_line (w : World) (text : string) : World :=
  mkWorld (lastUpdateDate w) (console w ++ [ConsoleError text]).

(** The three recommendation texts of the report. *)
Definition conservative_guidance : list string :=
  [ "Revenue below base threshold. Maintain conservative budgets.";
    "Focus on revenue-generating activities." ].

Definition beyond_cap_guidance : list string :=
  [ "Revenue at maximum scaling threshold. Budgets capped at 10x.";
    "Consider strategic investments beyond base scaling." ].

Definition progress_message (h : Host) (multiple milestone : number) : string :=
  "Current scale: " ++ Number_toFixed h multiple 1
  ++ "x. Next milestone: $" ++ Number_toLocaleString h milestone
  ++ " MRR for " ++ Number_toFixed h (milestone / 1000) 1 ++ "x scaling.".

(** What an applied update writes to the console. *)
Definition update_lines (h : Host) (limits : BudgetLimits) (scale income : number)
  : list ConsoleLine :=
  [ ConsoleLog "📊 Budget Update Recommended:";
    ConsoleLog ("   Revenue: $" ++ Number_toLocaleString h income ++ "/month");
    ConsoleLog ("   Scale Factor: " ++ Number_toFixed h scale 2 ++ "x");
    ConsoleLog ("   CEO Max Spending: $"
                ++ Number_toString h (inject_Z (maxSpending (ceo limits))));
    ConsoleLog ("   CFO Cost Optimization: $"
                ++ Number_toString h (inject_Z (maxCostOptimization (cfo limits))));
    ConsoleLog ("   CFO Budget Allocation: $"
                ++ Number_toString h (inject_Z (maxBudgetAllocation (cfo limits))));
    ConsoleLog ("   CTO Infrastructure: $"
                ++ Number_toString h (inject_Z (maxInfrastructureCost (cto limits)))) ].

(** The result of an update computed from [report], and the result of a
    failed one. *)
Definition result_of (report : RevenueTracker.RevenueReport) : BudgetUpdater.UpdateResult :=
  BudgetUpdater.mkResult true (RevenueTracker.budgets report)
    (RevenueTracker.scaleFactor report)
    (totalMRR (RevenueTracker.revenue report)) None.

Definition failure_result (description : string) : BudgetUpdater.UpdateResult :=
  BudgetUpdater.mkResult false
    (mkBudgetLimits (mkCeo 300) (mkCfo 150 300) (mkCto 150))
    1 0 (Some description).

(** The throttle condition of the reconciler. *)
Definition throttled (stored : option string) (today : string) (scale : number) : Prop :=
  stored = Some today /\ scale <= 11 # 10.

(** ** Hosts for the examples *)

Definition show_integer (z : Z) : string := NilZero.string_of_int (Z.to_int z).

(** Digits of [n], padded with zeros on the left to [width] characters. *)
Fixpoint pad_left (width : nat) (digits : string) : string :=
  match Nat.ltb (String.length digits) width, width with
  | true, S w => pad_left w ("0" ++ digits)
  | _, _ => digits
  end.

(** [x.toFixed(d)] for [0 <= x < 1e21]. *)
Definition show_fixed (x : number) (d : nat) : string :=
  let scale := Z.pow 10 (Z.of_nat d) in
  let n := Qfloor (x * inject_Z scale + (1 # 2)) in
  match d with
  | O => show_integer n
  | _ => show_integer (n / scale) ++ "." ++ pad_left d (show_integer (n mod scale))
  end.

Definition example_host (network : string -> AxiosOutcome) (now : string) : Host :=
  mkHost network None now
         (fun x => show_integer (Qfloor x))
         show_fixed
         (fun x => show_integer (Qfloor x)).

Definition network_down (url : string) : AxiosOutcome :=
  Rejected (mkError "connect ECONNREFUSED").

Definition network_status (code : Z) (url : string) : AxiosOutcome :=
  Resolved (mkResponse code (DataValue None)).

Definition network_mrr (m : number) (url : string) : AxiosOutcome :=
  Resolved (mkResponse 200
    (DataValue (Some (mkFinancial (Some m) None None None None None)))).

Definition morning : string := "2024-03-01T09:30:00.000Z".
Definition evening : string := "2024-03-01T17:45:00.000Z".

Definition never_updated : World := mkWorld None [].
Definition updated_yesterday : World := mkWorld (Some "2024-02-29") [].
Definition updated_today : World := mkWorld (Some "2024-03-01") [].

(** A report step that throws. *)
Definition failing_report : Js RevenueTracker.RevenueReport :=
  throw (mkError "socket hang up").

(** What a run returned, if it returned. *)
Definition returned {A} (run : Completion A * World) : option A :=
  match fst run with
  | Normal a => Some a
  | Thrown _ => None
  end.

(** [h] with the environment variable [SUPER_ADMIN_URL] set to [v]. *)
Definition with_SUPER_ADMIN_URL (h : Host) (v : option string) : Host :=
  mkHost (axios_get h) v (Date_toISOString h)
         (Number_toString h) (Number_toFixed h) (Number_toLocaleString h).

(** [c] does not occur in [s]. *)
Fixpoint lacks (c : ascii) (s : string) : Prop :=
  match s with
  | EmptyString => True
  | String c' rest => c' <> c /\ lacks c rest
  end.

(** The request of [fetchRevenueData] was served: answered with status 200
    and a body that is not [null] or [undefined]. *)
Definition served (h : Host) (superAdminUrl : option string) : Prop :=
  exists response f,
    axios_get h (analytics_url h superAdminUrl) = Resolved response /\
    status response = 200%Z /\
    data response = DataValue f.

(** The world after one more line of [console.log]. *)
Definition with_log_line (w : World) (text : string) : World :=
  mkWorld (lastUpdateDate w) (console w ++ [ConsoleLog text]).

(** The three lines [runDailyUpdate] prints after a successful update. *)
Definition success_lines (h : Host) (result : BudgetUpdater.UpdateResult)
  : list ConsoleLine :=
  [ ConsoleLog "✅ Budgets updated successfully";
    ConsoleLog ("   Scale Factor: "
                ++ Number_toFixed h (BudgetUpdater.scaleFactor result) 2 ++ "x");
    ConsoleLog ("   Revenue: $"
                ++ Number_toLocaleString h (BudgetUpdater.revenue result) ++ "/month") ].

(** ** The engine in binary64 arithmetic

    The same two services once more, as the runtime executes them: a
    [number] is an IEEE 754 double ([spec_float] with 53 bits of precision),
    [/], [*] and [+] round to nearest even, comparisons with [NaN] are
    false, and a thrown value is any value, [null] and [undefined]
    included.  Payload fields are numbers or absent, as the [RevenueData]
    interface of the source types them.  The properties that depend on how
    a product is rounded, or on what is thrown, are stated on this model. *)

Module Binary64.

Definition double : Type := spec_float.

Definition prec : Z := 53.
Definition emax : Z := 1024.

(** The double of an integer literal. *)
Definition of_Z (z : Z) : double := binary_normalize prec emax z 0 false.

Definition mul (a b : double) : double := SFmul prec emax a b.
Definition div (a b : double) : double := SFdiv prec emax a b.
Definition add (a b : double) : double := SFadd prec emax a b.

(** [a < b], [a > b], [a <= b], [a >= b]. *)
Definition lt (a b : double) : bool := SFltb a b.
Definition gt (a b : double) : bool := SFltb b a.
Definition le (a b : double) : bool := SFleb a b.
Definition ge (a b : double) : bool := SFleb b a.

Definition is_finite (x : double) : bool :=
  match x with
  | S754_finite _ _ _ => true
  | S754_zero _ => true
  | _ => false
  end.

(** The real number a finite double stands for (0 for the others). *)
Definition value (x : double) : Q :=
  match x with
  | S754_finite s m e =>
      (if s then inject_Z (Zneg m) else inject_Z (Zpos m)) * Qpower 2 e
  | _ => 0
  end.

(** The double of an integer that a rounding function returns: a zero keeps
    the sign of the argument. *)
Definition integral (negative : bool) (n : Z) : double :=
  if Z.eqb n 0 then S754_zero negative else of_Z n.

Definition sign_of (x : double) : bool :=
  match x with
  | S754_finite s _ _ => s
  | S754_zero s => s
  | S754_infinity s => s
  | S754_nan => false
  end.

(** [Math.round]: the integer nearest to [x], ties towards +infinity;
    [NaN], the infinities and the zeros are returned as they are. *)
Definition Math_round (x : double) : double :=
  match x with
  | S754_finite s _ _ => integral s (Qfloor (value x + (1 # 2)))
  | _ => x
  end.

(** [Math.ceil]. *)
Definition Math_ceil (x : double) : double :=
  match x with
  | S754_finite s _ _ => integral s (Qceiling (value x))
  | _ => x
  end.

(** [x || 0] where [x] is a number that may be absent: [undefined], the
    zeros and [NaN] are falsy. *)
Definition or_zero (x : option double) : double :=
  match x with
  | Some (S754_zero _) => of_Z 0
  | Some S754_nan => of_Z 0
  | Some v => v
  | None => of_Z 0
  end.

(** What is thrown and caught: any value.  Of a value that is not [null]
    or [undefined] the handlers read [message], a string or [undefined]. *)
Inductive Thrown : Type :=
| ThrownNull
| ThrownUndefined
| ThrownValue (message : option string).

(** [new Error(text)]. *)
Definition new_Error (text : string) : Thrown := ThrownValue (Some text).

Inductive Outcome (A : Type) : Type :=
| Returned (a : A)
| Threw (v : Thrown).
Arguments Returned {A} a.
Arguments Threw {A} v.

Definition Async (A : Type) : Type := World -> Outcome A * World.

Definition ret {A} (a : A) : Async A := fun w => (Returned a, w).

Definition throw {A} (v : Thrown) : Async A := fun w => (Threw v, w).

Definition bind {A B} (c : Async A) (k : A -> Async B) : Async B :=
  fun w => match c w with
           | (Returned a, w') => k a w'
           | (Threw v, w') => (Threw v, w')
           end.

Definition try_catch {A} (body : Async A) (handler : Thrown -> Async A) : Async A :=
  fun w => match body w with
           | (Returned a, w') => (Returned a, w')
           | (Threw v, w') => handler v w'
           end.

Definition console_log (text : string) : Async unit :=
  fun w => (Returned tt, mkWorld (lastUpdateDate w) (console w ++ [ConsoleLog text])).

Definition console_error (text : string) : Async unit :=
  fun w => (Returned tt, mkWorld (lastUpdateDate w) (console w ++ [ConsoleError text])).

Definition read_lastUpdateDate : Async (option string) :=
  fun w => (Returned (lastUpdateDate w), w).

Definition write_lastUpdateDate (d : string) : Async unit :=
  fun w => (Returned tt, mkWorld (Some d) (console w)).

(** [error.message]: reading a property of [null] or [undefined] throws a
    [TypeError]. *)
Definition read_message (error : Thrown) : Async (option string) :=
  match error with
  | ThrownNull =>
      throw (new_Error "Cannot read properties of null (reading 'message')")
  | ThrownUndefined =>
      throw (new_Error "Cannot read properties of undefined (reading 'message')")
  | ThrownValue message => ret message
  end.

(** A value that is a string or [undefined], as [console] prints it. *)
Definition shown (value : option string) : string :=
  match value with
  | Some s => s
  | None => "undefined"
  end.

Record Financial : Type := mkFinancial {
  mrr : option double;
  dealioMRR : option double;
  quotelyMRR : option double;
  shopflowMRR : option double;
  shoplinkMRR : option double;
  fin_oneTimeRevenue : option double
}.

Inductive ResponseData : Type :=
| DataNull
| DataUndefined
| DataValue (financial : option Financial).

Record AxiosResponse : Type := mkResponse {
  status : Z;
  data : ResponseData
}.

(** [axios.get] rejects with an [AxiosError], which has a message, or
    resolves with a response of any status. *)
Inductive AxiosOutcome : Type :=
| Rejected (error_message : string)
| Resolved (response : AxiosResponse).

Record Host : Type := mkHost {
  axios_get : string -> AxiosOutcome;
  SUPER_ADMIN_URL : option string;
  Date_toISOString : string;
  Number_toString : double -> string;
  Number_toFixed : double -> nat -> string;
  Number_toLocaleString : double -> string
}.

Record RevenueByProduct : Type := mkRevenueByProduct {
  dealio : double;
  quotely : double;
  shopflow : double;
  shoplink : double
}.

Record RevenueData : Type := mkRevenueData {
  totalMRR : double;
  revenueByProduct : RevenueByProduct;
  oneTimeRevenue : double;
  totalRevenue : double
}.

Record CeoLimits : Type := mkCeo { maxSpending : double }.
Record CfoLimits : Type := mkCfo { maxCostOptimization : double; maxBudgetAllocation : double }.
Record CtoLimits : Type := mkCto { maxInfrastructureCost : double }.

Record BudgetLimits : Type := mkBudgetLimits {
  ceo : CeoLimits;
  cfo : CfoLimits;
  cto : CtoLimits
}.

(** *** RevenueTracker *)

Module RevenueTracker.

Definition baseRevenue : double := of_Z 1000.
Definition maxScaleFactor : double := of_Z 10.
Definition minScaleFactor : double := of_Z 1.

Definition baseBudgets : BudgetLimits :=
  mkBudgetLimits (mkCeo (of_Z 300)) (mkCfo (of_Z 150) (of_Z 300)) (mkCto (of_Z 150)).

Definition calculateScaleFactor (monthlyRevenue : double) : double :=
  let scaleFactor := div monthlyRevenue baseRevenue in
  if gt scaleFactor maxScaleFactor then maxScaleFactor
  else if lt scaleFactor minScaleFactor then minScaleFactor
  else scaleFactor.

Definition calculateBudgetLimits (monthlyRevenue : double) : BudgetLimits :=
  let scaleFactor := calculateScaleFactor monthlyRevenue in
  mkBudgetLimits
    (mkCeo (Math_round (mul (maxSpending (ceo baseBudgets)) scaleFactor)))
    (mkCfo (Math_round (mul (maxCostOptimization (cfo baseBudgets)) scaleFactor))
           (Math_round (mul (maxBudgetAllocation (cfo baseBudgets)) scaleFactor)))
    (mkCto (Math_round (mul (maxInfrastructureCost (cto baseBudgets)) scaleFactor))).

Definition defaultSuperAdminUrl : string := "https://super-admin.doublevision.company".

Definition zeroRevenue : RevenueData :=
  mkRevenueData (of_Z 0) (mkRevenueByProduct (of_Z 0) (of_Z 0) (of_Z 0) (of_Z 0))
                (of_Z 0) (of_Z 0).

(** [await axios.get(...)]. *)
Definition await_get (h : Host) (url : string) : Async AxiosResponse :=
  fun w => match axios_get h url with
           | Rejected text => (Threw (new_Error text), w)
           | Resolved response => (Returned response, w)
           end.

(** [analytics.financial || {}], after [analytics = response.data]. *)
Definition read_financial (data : ResponseData) : Async Financial :=
  match data with
  | DataNull =>
      throw (new_Error "Cannot read properties of null (reading 'financial')")
  | DataUndefined =>
      throw (new_Error "Cannot read properties of undefined (reading 'financial')")
  | DataValue (Some f) => ret f
  | DataValue None => ret (mkFinancial None None None None None None)
  end.

Definition fetchRevenueData (h : Host) (superAdminUrl : option string) : Async RevenueData :=
  let url := or_string superAdminUrl
               (or_string (SUPER_ADMIN_URL h) defaultSuperAdminUrl) in
  try_catch
    (bind (await_get h (url ++ "/api/analytics")) (fun response =>
     bind (if negb (Z.eqb (status response) 200)
           then throw (new_Error ("Failed to fetch analytics: "
                                  ++ Number_toString h (of_Z (status response))))
           else ret tt) (fun _ =>
     bind (read_financial (data response)) (fun financial =>
     let totalMRR := or_zero (mrr financial) in
     let revenueByProduct :=
       mkRevenueByProduct (or_zero (dealioMRR financial))
                          (or_zero (quotelyMRR financial))
                          (or_zero (shopflowMRR financial))
                          (or_zero (shoplinkMRR financial)) in
     let oneTimeRevenue := or_zero (fin_oneTimeRevenue financial) in
     let totalRevenue := add totalMRR oneTimeRevenue in
     ret (mkRevenueData totalMRR revenueByProduct oneTimeRevenue totalRevenue)))))
    (fun error =>
       bind (read_message error) (fun message =>
       bind (console_error ("Error fetching revenue data: " ++ shown message)) (fun _ =>
       ret zeroRevenue))).

Record RevenueReport : Type := mkReport {
  revenue : RevenueData;
  scaleFactor : double;
  budgets : BudgetLimits;
  recommendations : list string
}.

Definition generateRevenueReport (h : Host) : Async RevenueReport :=
  bind (fetchRevenueData h None) (fun revenue =>
  let scaleFactor := calculateScaleFactor (totalMRR revenue) in
  let budgets := calculateBudgetLimits (totalMRR revenue) in
  let recommendations :=
    if lt (totalMRR revenue) baseRevenue then
      [ "Revenue below base threshold. Maintain conservative budgets.";
        "Focus on revenue-generating activities." ]
    else if ge scaleFactor maxScaleFactor then
      [ "Revenue at maximum scaling threshold. Budgets capped at 10x.";
        "Consider strategic investments beyond base scaling." ]
    else
      let nextMilestone := mul (Math_ceil (div (totalMRR revenue) (of_Z 1000)))
                               (of_Z 1000) in
      [ "Current scale: " ++ Number_toFixed h scaleFactor 1
        ++ "x. Next milestone: $" ++ Number_toLocaleString h nextMilestone
        ++ " MRR for " ++ Number_toFixed h (div nextMilestone baseRevenue) 1
        ++ "x scaling." ] in
  ret (mkReport revenue scaleFactor budgets recommendations)).

End RevenueTracker.

(** *** BudgetUpdater *)

Module BudgetUpdater.

(** [this.lastUpdateDate === today]. *)
Definition same_date (stored : option string) (today : string) : bool :=
  match stored with
  | Some d => String.eqb d today
  | None => false
  end.

Record UpdateResult : Type := mkResult {
  success : bool;
  budgets : BudgetLimits;
  scaleFactor : double;
  revenue : double;
  error : option string
}.

(** The literal [1.1]: the double nearest to 11/10, which is what the
    correctly rounded quotient of 11 and 10 is. *)
Definition threshold : double := div (of_Z 11) (of_Z 10).

(** [updateBudgets], with the call [this.revenueTracker.generateRevenueReport()]
    as the computation [tracker_report]. *)
Definition updateBudgets_body (tracker_report : Async RevenueTracker.RevenueReport)
    (h : Host)
  : Async UpdateResult :=
  try_catch
    (bind tracker_report (fun report =>
     let budgets := RevenueTracker.budgets report in
     let scaleFactor := RevenueTracker.scaleFactor report in
     let revenue := totalMRR (RevenueTracker.revenue report) in
     let today := split_head "T" (Date_toISOString h) in
     bind read_lastUpdateDate (fun stored =>
     if same_date stored today && le scaleFactor threshold then
       ret (mkResult true budgets scaleFactor revenue None)
     else
       bind (console_log "📊 Budget Update Recommended:") (fun _ =>
       bind (console_log ("   Revenue: $" ++ Number_toLocaleString h revenue ++ "/month"))
            (fun _ =>
       bind (console_log ("   Scale Factor: " ++ Number_toFixed h scaleFactor 2 ++ "x"))
            (fun _ =>
       bind (console_log ("   CEO Max Spending: $"
                          ++ Number_toString h (maxSpending (ceo budgets)))) (fun _ =>
       bind (console_log ("   CFO Cost Optimization: $"
                          ++ Number_toString h (maxCostOptimization (cfo budgets))))
            (fun _ =>
       bind (console_log ("   CFO Budget Allocation: $"
                          ++ Number_toString h (maxBudgetAllocation (cfo budgets))))
            (fun _ =>
       bind (console_log ("   CTO Infrastructure: $"
                          ++ Number_toString h (maxInfrastructureCost (cto budgets))))
            (fun _ =>
       bind (write_lastUpdateDate today) (fun _ =>
       ret (mkResult true budgets scaleFactor revenue None))))))))))))
    (fun error =>
       bind (read_message error) (fun message =>
       ret (mkResult false
              (mkBudgetLimits (mkCeo (of_Z 300)) (mkCfo (of_Z 150) (of_Z 300))
                              (mkCto (of_Z 150)))
              (of_Z 1) (of_Z 0) message))).

(** The updater as constructed: its tracker is a [RevenueTracker]. *)
Definition updateBudgets (h : Host) : Async UpdateResult :=
  updateBudgets_body (RevenueTracker.generateRevenueReport h) h.

Definition runDailyUpdate_body (tracker_report : Async RevenueTracker.RevenueReport)
    (h : Host)
  : Async unit :=
  bind (console_log "🔄 Running daily budget update...") (fun _ =>
  bind (updateBudgets_body tracker_report h) (fun result =>
  if success result then
    bind (console_log "✅ Budgets updated successfully") (fun _ =>
    bind (console_log ("   Scale Factor: " ++ Number_toFixed h (scaleFactor result) 2
                       ++ "x")) (fun _ =>
    console_log ("   Revenue: $" ++ Number_toLocaleString h (revenue result)
                 ++ "/month")))
  else
    console_error ("❌ Budget update failed: " ++ shown (error result)))).

Definition runDailyUpdate (h : Host) : Async unit :=
  runDailyUpdate_body (RevenueTracker.generateRevenueReport h) h.

End BudgetUpdater.

End Binary64.

(** The limits that belong to a scale factor in the arithmetic of the
    code: [Math.round] of the double product of each base limit of the
    fixed table and the scale factor. *)
Definition limits_at_scale (s : Binary64.double) : Binary64.BudgetLimits :=
  Binary64.mkBudgetLimits
    (Binary64.mkCeo (Binary64.Math_round (Binary64.mul (Binary64.of_Z 300) s)))
    (Binary64.mkCfo (Binary64.Math_round (Binary64.mul (Binary64.of_Z 150) s))
                    (Binary64.Math_round (Binary64.mul (Binary64.of_Z 300) s)))
    (Binary64.mkCto (Binary64.Math_round (Binary64.mul (Binary64.of_Z 150) s))).

(** A double [limit] is the double product [product] rounded half up: when
    the product is finite, [limit] is the double of the integer nearest to
    the value of the product, the upper one of two. *)
Definition rounds_product (product limit : Binary64.double) : Prop :=
  limit = Binary64.Math_round product /\
  (Binary64.is_finite product = true ->
   exists n : Z,
     rounds_half_up (Binary64.value product) n /\
     limit = Binary64.integral (Binary64.sign_of product) n).

(** The result of an update computed from [report], and the result of a
    failed one, in binary64. *)
Definition result_of64 (report : Binary64.RevenueTracker.RevenueReport)
  : Binary64.BudgetUpdater.UpdateResult :=
  Binary64.BudgetUpdater.mkResult true
    (Binary64.RevenueTracker.budgets report)
    (Binary64.RevenueTracker.scaleFactor report)
    (Binary64.totalMRR (Binary64.RevenueTracker.revenue report)) None.

Definition failure_result64 (message : option string)
  : Binary64.BudgetUpdater.UpdateResult :=
  Binary64.BudgetUpdater.mkResult false
    (Binary64.mkBudgetLimits
       (Binary64.mkCeo (Binary64.of_Z 300))
       (Binary64.mkCfo (Binary64.of_Z 150) (Binary64.of_Z 300))
       (Binary64.mkCto (Binary64.of_Z 150)))
    (Binary64.of_Z 1) (Binary64.of_Z 0) message.

(** A host for the examples in binary64, with the payload [mrr]. *)
Definition example_host64 (network : string -> Binary64.AxiosOutcome) (now : string)
  : Binary64.Host :=
  Binary64.mkHost network None now
    (fun x => show_integer (Qfloor (Binary64.value x)))
    (fun x d => show_fixed (Binary64.value x) d)
    (fun x => show_integer (Qfloor (Binary64.value x))).

Definition network_mrr64 (m : Z) (url : string) : Binary64.AxiosOutcome :=
  Binary64.Resolved (Binary64.mkResponse 200
    (Binary64.DataValue
       (Some (Binary64.mkFinancial (Some (Binary64.of_Z m)) None None None None None)))).

(** ** Internal routes (src/routes/internal.ts)

    The handlers the service registers under an API-key hook: the Meta
    Graph proxy and the lead and ticket intake.  The Graph API, the request
    schemas of [../types] and the database client are what the handlers are
    run against ([Services]); the handlers themselves are the source's. *)

Module InternalRoutes.

(** JavaScript values as the handlers see them: request bodies, payloads of
    the Graph API, database rows, reply bodies.  The fields of an object
    have distinct keys. *)
#[local] Set Warnings "-register-all".
Inductive JsValue : Type :=
| JsUndefined
| JsNull
| JsBool (b : bool)
| JsNumber (x : number)
| JsString (s : string)
| JsArray (items : list JsValue)
| JsObject (fields : list (string * JsValue)).
#[local] Set Warnings "register-all".

Definition truthy (v : JsValue) : bool :=
  match v with
  | JsUndefined => false
  | JsNull => false
  | JsBool b => b
  | JsNumber x => negb (Qeq_bool x 0)
  | JsString s => negb (String.eqb s "")
  | JsArray _ => true
  | JsObject _ => true
  end.

(** [a || b]. *)
Definition js_or (a b : JsValue) : JsValue := if truthy a then a else b.

Fixpoint lookup (key : string) (fields : list (string * JsValue)) : JsValue :=
  match fields with
  | [] => JsUndefined
  | (k, v) :: rest => if String.eqb k key then v else lookup key rest
  end.

(** [v?.data]: [undefined] unless [v] is an object with that field. *)
Definition optional_data (v : JsValue) : JsValue :=
  match v with
  | JsObject fields => lookup "data" fields
  | _ => JsUndefined
  end.

(** [{ ...params, access_token: token }]. *)
Fixpoint with_access_token (params : list (string * JsValue)) (token : JsValue)
  : list (string * JsValue) :=
  match params with
  | [] => [("access_token", token)]
  | (k, v) :: rest =>
      if String.eqb k "access_token" then (k, token) :: rest
      else (k, v) :: with_access_token rest token
  end.

(** The variables of [process.env] the routes read. *)
Record ProcessEnv : Type := mkEnv {
  API_KEY : option string;
  INTERNAL_API_KEY : option string;
  META_ACCESS_TOKEN : option string;
  FACEBOOK_ACCESS_TOKEN : option string;
  INSTAGRAM_ACCESS_TOKEN : option string
}.

(** [a || b] on values that are a string or [undefined]. *)
Definition env_or (a b : option string) : option string :=
  match a with
  | Some s => if String.eqb s "" then b else Some s
  | None => b
  end.

(** [!a] and [a !== b] on values that are a string or [undefined]. *)
Definition falsy (a : option string) : bool :=
  match a with
  | Some s => String.eqb s ""
  | None => true
  end.

Definition differs (a b : option string) : bool :=
  match a, b with
  | Some x, Some y => negb (String.eqb x y)
  | None, None => false
  | _, _ => true
  end.

Record Reply : Type := mkReply {
  code : Z;
  payload : JsValue
}.

(** The [onRequest] hook: the reply it sends, if it sends one. *)
Definition onRequest (env : ProcessEnv) (x_api_key : option string) : option Reply :=
  let apiKey := x_api_key in
  let requiredKey := env_or (API_KEY env) (INTERNAL_API_KEY env) in
  if falsy apiKey || differs apiKey requiredKey then
    Some (mkReply 401 (JsObject [("error", JsString "Unauthorized - API key required")]))
  else None.

(** What a handler catches: a [ZodError] of the schemas, with its [errors]
    and [message], or another error, of which the handlers read [message]
    and [response?.data]. *)
Record ErrorInfo : Type := mkErrorInfo {
  error_message : string;
  response_data : JsValue
}.

Inductive Exception : Type :=
| ZodError (errors : JsValue) (zod_message : string)
| OtherError (e : ErrorInfo).

Inductive Result (A : Type) : Type :=
| Ok (a : A)
| Err (e : Exception).
Arguments Ok {A} a.
Arguments Err {A} e.

Definition getMetaToken (env : ProcessEnv) : Result string :=
  let token :=
    or_string (env_or (env_or (META_ACCESS_TOKEN env) (FACEBOOK_ACCESS_TOKEN env))
                      (INSTAGRAM_ACCESS_TOKEN env)) "" in
  if String.eqb token "" then
    Err (OtherError (mkErrorInfo "META_ACCESS_TOKEN not configured" JsUndefined))
  else Ok token.

(** Calls of the database client. *)
Inductive DbCall : Type :=
| LeadCreate (data : list (string * JsValue))
| LeadUpdate (id : string) (data : list (string * JsValue))
| TicketCreate (data : list (string * JsValue)).

Record LeadInput : Type := mkLeadInput {
  companyName : JsValue;
  contactEmail : JsValue;
  notes : JsValue;
  source : JsValue
}.

Record LeadStatusInput : Type := mkLeadStatusInput {
  new_status : JsValue
}.

Record TicketInput : Type := mkTicketInput {
  priority : JsValue;
  summary : JsValue;
  details : JsValue;
  sessionId : JsValue;
  leadId : JsValue
}.

(** What the handlers are run against: the Graph API behind [axios.get]
    (a rejection carries the error, a response its body), the [parse] of
    the three schemas ([Err] is what it throws), and the database client. *)
Record Services : Type := mkServices {
  graph_get : string -> list (string * JsValue) -> Result JsValue;
  CreateLeadSchema_parse : JsValue -> Result LeadInput;
  UpdateLeadStatusSchema_parse : JsValue -> Result LeadStatusInput;
  CreateTicketSchema_parse : JsValue -> Result TicketInput;
  prisma : DbCall -> Result JsValue
}.

(** What the handlers leave behind: the requests sent to the Graph API, the
    calls made to the database and the errors given to [fastify.log.error],
    each oldest first. *)
Record Trace : Type := mkTrace {
  graph_requests : list (string * list (string * JsValue));
  db_calls : list DbCall;
  logged : list Exception
}.

Definition Route (A : Type) : Type := Trace -> Result A * Trace.

Definition pure {A} (a : A) : Route A := fun t => (Ok a, t).

Definition raise {A} (e : Exception) : Route A := fun t => (Err e, t).

Definition and_then {A B} (c : Route A) (k : A -> Route B) : Route B :=
  fun t => match c t with
           | (Ok a, t') => k a t'
           | (Err e, t') => (Err e, t')
           end.

Definition catching {A} (body : Route A) (handler : Exception -> Route A) : Route A :=
  fun t => match body t with
           | (Ok a, t') => (Ok a, t')
           | (Err e, t') => handler e t'
           end.

Definition of_result {A} (r : Result A) : Route A := fun t => (r, t).

Definition log_error (e : Exception) : Route unit :=
  fun t => (Ok tt, mkTrace (graph_requests t) (db_calls t) (logged t ++ [e])).

Definition axios_get_graph (svc : Services) (url : string)
    (params : list (string * JsValue)) : Route JsValue :=
  fun t => (graph_get svc url params,
            mkTrace (graph_requests t ++ [(url, params)]) (db_calls t) (logged t)).

Definition prisma_call (svc : Services) (call : DbCall) : Route JsValue :=
  fun t => (prisma svc call,
            mkTrace (graph_requests t) (db_calls t ++ [call]) (logged t)).

Definition metaGet (env : ProcessEnv) (svc : Services) (path : string)
    (params : list (string * JsValue)) : Route JsValue :=
  and_then (of_result (getMetaToken env)) (fun token =>
  let url := "https://graph.facebook.com/v18.0" ++ path in
  axios_get_graph svc url (with_access_token params (JsString token))).

(** [error.response?.data || error.message]. *)
Definition error_detail (e : Exception) : JsValue :=
  match e with
  | OtherError info => js_or (response_data info) (JsString (error_message info))
  | ZodError _ zod_message => js_or JsUndefined (JsString zod_message)
  end.

Definition get_meta_whoami (env : ProcessEnv) (svc : Services) : Route Reply :=
  catching
    (and_then (metaGet env svc "/me" [("fields", JsString "id,name")]) (fun me =>
     pure (mkReply 200 (JsObject [("ok", JsBool true); ("me", me)]))))
    (fun error =>
       and_then (log_error error) (fun _ =>
       pure (mkReply 500 (JsObject [("ok", JsBool false);
                                    ("error", error_detail error)])))).

(** [promise.catch(() => ({ data: [] }))]. *)
Definition or_empty_data (c : Route JsValue) : Route JsValue :=
  catching c (fun _ => pure (JsObject [("data", JsArray [])])).

Definition get_meta_assets (env : ProcessEnv) (svc : Services) : Route Reply :=
  catching
    (and_then (or_empty_data (metaGet env svc "/me/businesses"
                                [("fields", JsString "id,name")])) (fun businesses =>
     and_then (or_empty_data (metaGet env svc "/me/adaccounts"
                                [("fields", JsString "id,name,account_status")]))
              (fun adaccounts =>
     and_then (or_empty_data (metaGet env svc "/me/accounts"
                                [("fields", JsString "id,name")])) (fun pages =>
     pure (mkReply 200 (JsObject
       [("ok", JsBool true);
        ("businesses", js_or (optional_data businesses) (JsArray []));
        ("adaccounts", js_or (optional_data adaccounts) (JsArray []));
        ("pages", js_or (optional_data pages) (JsArray []))]))))))
    (fun error =>
       and_then (log_error error) (fun _ =>
       pure (mkReply 500 (JsObject [("ok", JsBool false);
                                    ("error", error_detail error)])))).

(** The [catch] block the intake handlers share. *)
Definition intake_failure (error : Exception) : Route Reply :=
  match error with
  | ZodError errors _ =>
      pure (mkReply 400 (JsObject [("error", JsString "Invalid request");
                                   ("details", errors)]))
  | OtherError _ =>
      and_then (log_error error) (fun _ =>
      pure (mkReply 500 (JsObject [("error", JsString "Internal server error")])))
  end.

Definition post_leads (svc : Services) (request_body : JsValue) : Route Reply :=
  catching
    (and_then (of_result (CreateLeadSchema_parse svc request_body)) (fun body =>
     and_then (prisma_call svc (LeadCreate
                 [("companyName", companyName body);
                  ("contactEmail", contactEmail body);
                  ("notes", notes body);
                  ("source", source body);
                  ("status", JsString "new")])) (fun lead =>
     pure (mkReply 200 lead))))
    intake_failure.

Definition patch_lead (svc : Services) (id : string) (request_body : JsValue)
  : Route Reply :=
  catching
    (and_then (of_result (UpdateLeadStatusSchema_parse svc request_body)) (fun body =>
     and_then (prisma_call svc (LeadUpdate id [("status", new_status body)]))
              (fun lead =>
     pure (mkReply 200 lead))))
    intake_failure.

Definition post_tickets (svc : Services) (request_body : JsValue) : Route Reply :=
  catching
    (and_then (of_result (CreateTicketSchema_parse svc request_body)) (fun body =>
     and_then (prisma_call svc (TicketCreate
                 [("priority", priority body);
                  ("summary", summary body);
                  ("details", details body);
                  ("sessionId", sessionId body);
                  ("leadId", leadId body);
                  ("status", JsString "open")])) (fun ticket =>
     pure (mkReply 200 ticket))))
    intake_failure.

End InternalRoutes.

(** A variable of the environment that is absent or empty. *)
Definition unset (v : option string) : Prop := v = None \/ v = Some "".

(** What the assets handler lists for one Graph request: the [data] of the
    payload when that is truthy, the empty array otherwise and when the
    request failed. *)
Definition listing (r : InternalRoutes.Result InternalRoutes.JsValue)
  : InternalRoutes.JsValue :=
  match r with
  | InternalRoutes.Ok d =>
      InternalRoutes.js_or (InternalRoutes.optional_data d) (InternalRoutes.JsArray [])
  | InternalRoutes.Err _ => InternalRoutes.JsArray []
  end.

(** The trace after one more Graph request, database call or logged
    error. *)
Definition with_graph_request (t : InternalRoutes.Trace) (url : string)
    (params : list (string * InternalRoutes.JsValue)) : InternalRoutes.Trace :=
  InternalRoutes.mkTrace (InternalRoutes.graph_requests t ++ [(url, params)])
                         (InternalRoutes.db_calls t) (InternalRoutes.logged t).

Definition with_db_call (t : InternalRoutes.Trace) (call : InternalRoutes.DbCall)
  : InternalRoutes.Trace :=
  InternalRoutes.mkTrace (InternalRoutes.graph_requests t)
                         (InternalRoutes.db_calls t ++ [call]) (InternalRoutes.logged t).

Definition with_logged (t : InternalRoutes.Trace) (e : InternalRoutes.Exception)
  : InternalRoutes.Trace :=
  InternalRoutes.mkTrace (InternalRoutes.graph_requests t)
                         (InternalRoutes.db_calls t) (InternalRoutes.logged t ++ [e]).

(** The replies of the handlers' [catch] blocks. *)
Definition unauthorized : InternalRoutes.Reply :=
  InternalRoutes.mkReply 401
    (InternalRoutes.JsObject
       [("error", InternalRoutes.JsString "Unauthorized - API key required")]).

Definition invalid_request (errors : InternalRoutes.JsValue) : InternalRoutes.Reply :=
  InternalRoutes.mkReply 400
    (InternalRoutes.JsObject [("error", InternalRoutes.JsString "Invalid request");
                              ("details", errors)]).

Definition internal_server_error : InternalRoutes.Reply :=
  InternalRoutes.mkReply 500
    (InternalRoutes.JsObject [("error", InternalRoutes.JsString "Internal server error")]).

Definition meta_failure (detail : InternalRoutes.JsValue) : InternalRoutes.Reply :=
  InternalRoutes.mkReply 500
    (InternalRoutes.JsObject [("ok", InternalRoutes.JsBool false); ("error", detail)]).

(** What [getMetaToken] throws. *)
Definition not_configured : InternalRoutes.Exception :=
  InternalRoutes.OtherError
    (InternalRoutes.mkErrorInfo "META_ACCESS_TOKEN not configured"
                                InternalRoutes.JsUndefined).

(** The data the intake handlers give the database. *)
Definition lead_row (body : InternalRoutes.LeadInput)
  : list (string * InternalRoutes.JsValue) :=
  [("companyName", InternalRoutes.companyName body);
   ("contactEmail", InternalRoutes.contactEmail body);
   ("notes", InternalRoutes.notes body);
   ("source", InternalRoutes.source body);
   ("status", InternalRoutes.JsString "new")].

Definition ticket_row (body : InternalRoutes.TicketInput)
  : list (string * InternalRoutes.JsValue) :=
  [("priority", InternalRoutes.priority body);
   ("summary", InternalRoutes.summary body);
   ("details", InternalRoutes.details body);
   ("sessionId", InternalRoutes.sessionId body);
   ("leadId", InternalRoutes.leadId body);
   ("status", InternalRoutes.JsString "open")].

(** ** Environments and services for the examples *)

Module Examples.

Import InternalRoutes.

Definition no_keys : ProcessEnv := mkEnv None (Some "") None None None.
Definition with_fallback_key : ProcessEnv :=
  mkEnv (Some "") (Some "s3cret") None (Some "fb-token") (Some "ig-token").

Definition required (field : string) : Exception :=
  ZodError (JsArray [JsObject [("path", JsArray [JsString field]);
                               ("message", JsString "Required")]])
           "Required".

Definition db_unreachable : Exception :=
  OtherError (mkErrorInfo "Can't reach database server" JsUndefined).

Definition graph_rejects : Exception :=
  OtherError (mkErrorInfo "Request failed with status code 400"
                (JsObject [("error", JsObject [("message", JsString "Invalid OAuth access token")])])).

Definition parse_lead (v : JsValue) : Result LeadInput :=
  match v with
  | JsObject f =>
      if truthy (lookup "companyName" f)
      then Ok (mkLeadInput (lookup "companyName" f) (lookup "contactEmail" f)
                           (lookup "notes" f) (lookup "source" f))
      else Err (required "companyName")
  | _ => Err (required "companyName")
  end.

Definition parse_status (v : JsValue) : Result LeadStatusInput :=
  match v with
  | JsObject f =>
      if truthy (lookup "status" f) then Ok (mkLeadStatusInput (lookup "status" f))
      else Err (required "status")
  | _ => Err (required "status")
  end.

Definition parse_ticket (v : JsValue) : Result TicketInput :=
  match v with
  | JsObject f =>
      if truthy (lookup "summary" f)
      then Ok (mkTicketInput (lookup "priority" f) (lookup "summary" f)
                             (lookup "details" f) (lookup "sessionId" f)
                             (lookup "leadId" f))
      else Err (required "summary")
  | _ => Err (required "summary")
  end.

Definition store (call : DbCall) : Result JsValue :=
  match call with
  | LeadCreate data => Ok (JsObject (("id", JsString "lead-1") :: data))
  | LeadUpdate id data => Ok (JsObject (("id", JsString id) :: data))
  | TicketCreate data => Ok (JsObject (("id", JsString "ticket-1") :: data))
  end.

Definition graph_pages (url : string) (params : list (string * JsValue)) : Result JsValue :=
  if String.eqb url "https://graph.facebook.com/v18.0/me/accounts"
  then Ok (JsObject [("data", JsArray [JsObject [("id", JsString "17"); ("name", JsString "Shop")]])])
  else if String.eqb url "https://graph.facebook.com/v18.0/me"
  then Ok (JsObject [("id", JsString "42"); ("name", JsString "Finley")])
  else Err graph_rejects.

Definition services_up : Services :=
  mkServices graph_pages parse_lead parse_status parse_ticket store.

Definition services_db_down : Services :=
  mkServices graph_pages parse_lead parse_status parse_ticket
             (fun _ => Err db_unreachable).

Definition services_graph_down : Services :=
  mkServices (fun _ _ => Err graph_rejects) parse_lead parse_status parse_ticket store.

Definition quiet : Trace := mkTrace [] [] [].

Definition acme_lead : JsValue :=
  JsObject [("companyName", JsString "Acme"); ("contactEmail", JsString "a@acme.test");
            ("status", JsString "won")].

End Examples.

(** * Properties *)

(** ** Numbers *)

Lemma num_lt_true (a b : number) : num_lt a b = true <-> a < b.
Proof.
  unfold num_lt. rewrite negb_true_iff. split; intro H.
  - apply Qnot_le_lt. intro L. apply Qle_bool_iff in L. congruence.
  - destruct (Qle_bool b a) eqn:E; trivial.
    apply Qle_bool_iff in E. exfalso. apply (Qlt_not_le _ _ H E).
Qed.

Lemma num_lt_false (a b : number) : num_lt a b = false <-> b <= a.
Proof.
  unfold num_lt. rewrite negb_false_iff. apply Qle_bool_iff.
Qed.

Lemma num_le_true (a b : number) : num_le a b = true <-> a <= b.
Proof. apply Qle_bool_iff. Qed.

Lemma num_le_false (a b : number) : num_le a b = false <-> b < a.
Proof.
  unfold num_le. split; intro H.
  - apply Qnot_le_lt. intro L. apply Qle_bool_iff in L. congruence.
  - destruct (Qle_bool a b) eqn:E; trivial.
    apply Qle_bool_iff in E. exfalso. apply (Qlt_not_le _ _ H E).
Qed.

Lemma Math_round_half_up (x : number) : rounds_half_up x (Math_round x).
Proof.
  unfold rounds_half_up, Math_round.
  pose proof (Qfloor_le (x + (1 # 2))) as Hlo.
  pose proof (Qlt_floor (x + (1 # 2))) as Hhi.
  rewrite inject_Z_plus in Hhi. change (inject_Z 1) with 1 in Hhi.
  split; lra.
Qed.

Lemma rounds_half_up_unique (x : Q) (n m : Z) :
  rounds_half_up x n -> rounds_half_up x m -> n = m.
Proof.
  unfold rounds_half_up. intros [Hn1 Hn2] [Hm1 Hm2].
  assert (inject_Z n < inject_Z m + 1) as A by lra.
  assert (inject_Z m < inject_Z n + 1) as B by lra.
  change 1 with (inject_Z 1) in A, B.
  rewrite <- inject_Z_plus in A, B.
  rewrite <- Zlt_Qlt in A, B. lia.
Qed.

Lemma Math_round_mono (x y : number) : x <= y -> (Math_round x <= Math_round y)%Z.
Proof.
  intro H. unfold Math_round. apply Qfloor_resp_le. lra.
Qed.

Lemma Math_round_integer (z : Z) : Math_round (inject_Z z) = z.
Proof.
  symmetry. apply (rounds_half_up_unique (inject_Z z)).
  - unfold rounds_half_up. split; lra.
  - apply Math_round_half_up.
Qed.

Lemma Math_round_proper (x y : number) : x == y -> Math_round x = Math_round y.
Proof.
  intro H. unfold Math_round. apply Qfloor_comp. rewrite H. reflexivity.
Qed.

(** ** Scale factor *)

Import RevenueTracker.

Lemma calculateScaleFactor_cases (r : number) :
  (10 < r / 1000 /\ calculateScaleFactor r = 10) \/
  (r / 1000 < 1 /\ calculateScaleFactor r = 1) \/
  (1 <= r / 1000 /\ r / 1000 <= 10 /\ calculateScaleFactor r = r / 1000).
Proof.
  unfold calculateScaleFactor, num_gt, baseRevenue, maxScaleFactor, minScaleFactor.
  destruct (num_lt 10 (r / 1000)) eqn:Hmax.
  - left. split; [now apply num_lt_true | reflexivity].
  - apply num_lt_false in Hmax.
    destruct (num_lt (r / 1000) 1) eqn:Hmin.
    + right; left. split; [now apply num_lt_true | reflexivity].
    + apply num_lt_false in Hmin. right; right. repeat split; assumption.
Qed.

Lemma calculateScaleFactor_range (r : number) :
  1 <= calculateScaleFactor r /\ calculateScaleFactor r <= 10.
Proof.
  destruct (calculateScaleFactor_cases r) as [[_ ->] | [[_ ->] | (H1 & H2 & ->)]];
    split; lra.
Qed.

(** Linear arithmetic once [r / 1000] is read as [r * (1 # 1000)]. *)
Ltac lra_div :=
  unfold Qdiv in *; change (/ 1000) with (1 # 1000) in *; lra.

Lemma clamp_above (x lo hi : Q) : lo <= hi -> hi <= x -> clamp x lo hi == hi.
Proof.
  intros H1 H2. unfold clamp. rewrite (Q.min_r x hi) by assumption.
  apply Q.max_r. assumption.
Qed.

Lemma clamp_below (x lo hi : Q) : lo <= hi -> x <= lo -> clamp x lo hi == lo.
Proof.
  intros H1 H2. unfold clamp. apply Q.max_l.
  apply Q.min_le_iff. left. assumption.
Qed.

Lemma clamp_inside (x lo hi : Q) : lo <= x -> x <= hi -> clamp x lo hi == x.
Proof.
  intros H1 H2. unfold clamp. rewrite (Q.min_l x hi) by assumption.
  apply Q.max_r. assumption.
Qed.

(** C4. For every revenue [r], and so for every [r >= 0],
    [calculateScaleFactor r] is [r / 1000] clamped to [1, 10]; it is
    [r / 1000] itself, unrounded, whenever [1 <= r / 1000 <= 10]; and for
    every negative [r] it is 1. *)
Theorem calculateScaleFactor_clamp (r : number) :
  (0 <= r -> calculateScaleFactor r == clamp (r / 1000) 1 10) /\
  (1 <= r / 1000 /\ r / 1000 <= 10 -> calculateScaleFactor r = r / 1000) /\
  (r < 0 -> calculateScaleFactor r = 1).
Proof.
  destruct (calculateScaleFactor_cases r) as [[H E] | [[H E] | (H1 & H2 & E)]];
    rewrite E; split; [| split | | split | | split ].
  - intros _. rewrite clamp_above; [reflexivity | lra | lra].
  - intros [_ H2]. exfalso. lra.
  - intros H0. exfalso. lra_div.
  - intros _. rewrite clamp_below; [reflexivity | lra | lra].
  - intros [H1 _]. exfalso. lra.
  - reflexivity.
  - intros _. rewrite clamp_inside; [reflexivity | assumption | assumption].
  - reflexivity.
  - intros H0. exfalso. lra_div.
Qed.

Lemma calculateScaleFactor_clamp_witness :
  (0 <= 2370 /\ calculateScaleFactor 2370 == clamp (2370 / 1000) 1 10) /\
  ((1 <= 2370 / 1000 /\ 2370 / 1000 <= 10) /\ calculateScaleFactor 2370 = 2370 / 1000) /\
  (-5 < 0 /\ calculateScaleFactor (-5) = 1).
Proof.
  assert (0 <= 2370) as H0 by (vm_compute; discriminate).
  assert (1 <= 2370 / 1000 /\ 2370 / 1000 <= 10) as H1
    by (split; vm_compute; discriminate).
  assert (-5 < 0) as H2 by reflexivity.
  split; [| split].
  - split; [exact H0 | exact (proj1 (calculateScaleFactor_clamp 2370) H0)].
  - split; [exact H1 | exact (proj1 (proj2 (calculateScaleFactor_clamp 2370)) H1)].
  - split; [exact H2 | exact (proj2 (proj2 (calculateScaleFactor_clamp (-5))) H2)].
Defined.

(** ** Budget limits *)

Lemma scaled_limit_bounds (base : Z) (s : number) :
  (0 <= base)%Z -> 1 <= s -> s <= 10 ->
  within_floor_and_ceiling base (Math_round (inject_Z base * s)).
Proof.
  intros Hb H1 H2. unfold within_floor_and_ceiling.
  assert (0 <= inject_Z base) as Hq by (rewrite Zle_Qle in Hb; exact Hb).
  split.
  - rewrite <- (Math_round_integer base) at 1. apply Math_round_mono. nra.
  - rewrite <- (Math_round_integer (base * 10)). apply Math_round_mono.
    rewrite inject_Z_mult. change (inject_Z 10) with 10. nra.
Qed.

Lemma scaled_limit_mono (base : Z) (s1 s2 : number) :
  (0 <= base)%Z -> s1 <= s2 ->
  Z.le (Math_round (inject_Z base * s1)) (Math_round (inject_Z base * s2)).
Proof.
  intros Hb H. apply Math_round_mono.
  assert (0 <= inject_Z base) as Hq by (rewrite Zle_Qle in Hb; exact Hb).
  nra.
Qed.

(** C5. For every revenue, each limit [calculateBudgetLimits] produces lies
    between the base limit of its role and ten times that base limit; at
    revenue 15000 the scale factor is the cap 10, the executive limit is
    3000, and every limit is at its ceiling of ten times the base. *)
Theorem calculateBudgetLimits_floor_and_ceiling :
  (forall r : number,
     let limits := calculateBudgetLimits r in
     within_floor_and_ceiling (maxSpending (ceo baseBudgets))
                              (maxSpending (ceo limits)) /\
     within_floor_and_ceiling (maxCostOptimization (cfo baseBudgets))
                              (maxCostOptimization (cfo limits)) /\
     within_floor_and_ceiling (maxBudgetAllocation (cfo baseBudgets))
                              (maxBudgetAllocation (cfo limits)) /\
     within_floor_and_ceiling (maxInfrastructureCost (cto baseBudgets))
                              (maxInfrastructureCost (cto limits))) /\
  calculateScaleFactor 15000 = 10 /\
  calculateBudgetLimits 15000
  = mkBudgetLimits (mkCeo 3000) (mkCfo 1500 3000) (mkCto 1500).
Proof.
  split; [| split; reflexivity].
  intros r limits.
  destruct (calculateScaleFactor_range r) as [H1 H2].
  unfold limits, calculateBudgetLimits; cbn [ceo cfo cto maxSpending
    maxCostOptimization maxBudgetAllocation maxInfrastructureCost].
  repeat split; apply scaled_limit_bounds; solve [assumption | discriminate].
Qed.

Lemma calculateScaleFactor_onto (s : number) :
  1 <= s -> s <= 10 -> calculateScaleFactor (s * 1000) == s.
Proof.
  intros H1 H2.
  assert (s * 1000 / 1000 == s) as E by (field).
  destruct (calculateScaleFactor_cases (s * 1000))
    as [[H ->] | [[H ->] | (_ & _ & ->)]].
  - rewrite E in H. lra.
  - rewrite E in H. lra.
  - exact E.
Qed.

(** C7. Whenever the scale factor of one revenue is at most that of
    another, every limit computed for the first is at most the limit
    computed for the second; and every scale factor [s] of [1, 10] is the
    scale factor of a revenue, [s * 1000]. *)
Theorem calculateBudgetLimits_monotone :
  (forall r1 r2 : number,
     calculateScaleFactor r1 <= calculateScaleFactor r2 ->
     limits_le (calculateBudgetLimits r1) (calculateBudgetLimits r2)) /\
  (forall s1 s2 : number,
     1 <= s1 -> s1 <= s2 -> s2 <= 10 ->
     limits_le (calculateBudgetLimits (s1 * 1000)) (calculateBudgetLimits (s2 * 1000))).
Proof.
  assert (forall r1 r2 : number,
     calculateScaleFactor r1 <= calculateScaleFactor r2 ->
     limits_le (calculateBudgetLimits r1) (calculateBudgetLimits r2)) as Hmono.
  { intros r1 r2 H. unfold limits_le, calculateBudgetLimits.
    cbn [ceo cfo cto maxSpending maxCostOptimization maxBudgetAllocation
         maxInfrastructureCost].
    repeat split; apply scaled_limit_mono; solve [assumption | discriminate]. }
  split; [exact Hmono |].
  intros s1 s2 H1 H12 H2. apply Hmono.
  rewrite !calculateScaleFactor_onto; lra.
Qed.

Lemma calculateBudgetLimits_monotone_witness :
  (calculateScaleFactor 1500 <= calculateScaleFactor 2370 /\
   limits_le (calculateBudgetLimits 1500) (calculateBudgetLimits 2370)) /\
  ((1 <= (3 # 2) /\ (3 # 2) <= (237 # 100) /\ (237 # 100) <= 10) /\
   limits_le (calculateBudgetLimits ((3 # 2) * 1000))
             (calculateBudgetLimits ((237 # 100) * 1000))).
Proof.
  assert (calculateScaleFactor 1500 <= calculateScaleFactor 2370) as H
    by (vm_compute; discriminate).
  assert (1 <= (3 # 2)) as H1 by (vm_compute; discriminate).
  assert ((3 # 2) <= (237 # 100)) as H2 by (vm_compute; discriminate).
  assert ((237 # 100) <= 10) as H3 by (vm_compute; discriminate).
  split.
  - split; [exact H | exact (proj1 calculateBudgetLimits_monotone 1500 2370 H)].
  - split; [auto |].
    exact (proj2 calculateBudgetLimits_monotone (3 # 2) (237 # 100) H1 H2 H3).
Defined.

(** ** Revenue fetch *)

Lemma fetchRevenueData_rejected (h : Host) (u : option string) (w : World) (e : JsError) :
  axios_get h (analytics_url h u) = Rejected e ->
  fetchRevenueData h u w
  = (Normal zeroRevenue,
     with_error_line w ("Error fetching revenue data: " ++ message e)).
Proof.
  intro H. unfold fetchRevenueData, try_catch, bind, await_get.
  unfold analytics_url in H. rewrite H. reflexivity.
Qed.

Lemma fetchRevenueData_bad_status (h : Host) (u : option string) (w : World)
    (response : AxiosResponse) :
  axios_get h (analytics_url h u) = Resolved response ->
  status response <> 200%Z ->
  exists text, fetchRevenueData h u w = (Normal zeroRevenue, with_error_line w text).
Proof.
  intros H Hs. unfold fetchRevenueData, try_catch, bind, await_get.
  unfold analytics_url in H. rewrite H.
  apply Z.eqb_neq in Hs. rewrite Hs. cbn. eexists. reflexivity.
Qed.

Lemma fetchRevenueData_nullish (h : Host) (u : option string) (w : World)
    (response : AxiosResponse) :
  axios_get h (analytics_url h u) = Resolved response ->
  status response = 200%Z ->
  data response = DataNullish ->
  exists text, fetchRevenueData h u w = (Normal zeroRevenue, with_error_line w text).
Proof.
  intros H Hs Hd. unfold fetchRevenueData, try_catch, bind, await_get.
  unfold analytics_url in H. rewrite H, Hs, Hd. cbn. eexists. reflexivity.
Qed.

Lemma fetchRevenueData_ok (h : Host) (u : option string) (w : World)
    (response : AxiosResponse) (f : option Financial) :
  axios_get h (analytics_url h u) = Resolved response ->
  status response = 200%Z ->
  data response = DataValue f ->
  let fin := match f with
             | Some fin => fin
             | None => mkFinancial None None None None None None
             end in
  fetchRevenueData h u w
  = (Normal (mkRevenueData
               (or_zero (mrr fin))
               (mkRevenueByProduct (or_zero (dealioMRR fin)) (or_zero (quotelyMRR fin))
                                   (or_zero (shopflowMRR fin)) (or_zero (shoplinkMRR fin)))
               (or_zero (fin_oneTimeRevenue fin))
               (or_zero (mrr fin) + or_zero (fin_oneTimeRevenue fin))),
     w).
Proof.
  intros H Hs Hd. unfold fetchRevenueData, try_catch, bind, await_get.
  unfold analytics_url in H. rewrite H, Hs, Hd. cbn. destruct f; reflexivity.
Qed.

(** [fetchRevenueData] always returns, and touches nothing but the
    console. *)
Lemma fetchRevenueData_returns (h : Host) (u : option string) (w : World) :
  exists snapshot w',
    fetchRevenueData h u w = (Normal snapshot, w') /\
    lastUpdateDate w' = lastUpdateDate w.
Proof.
  destruct (axios_get h (analytics_url h u)) as [e | response] eqn:H.
  - rewrite (fetchRevenueData_rejected _ _ _ _ H). eauto.
  - destruct (Z.eq_dec (status response) 200) as [Hs | Hs].
    + destruct (data response) as [| f] eqn:Hd.
      * destruct (fetchRevenueData_nullish _ _ w _ H Hs Hd) as [text ->]. eauto.
      * rewrite (fetchRevenueData_ok _ _ w _ _ H Hs Hd). eauto.
    + destruct (fetchRevenueData_bad_status _ _ w _ H Hs) as [text ->]. eauto.
Qed.

Lemma or_zero_field (x : option number) : or_zero x == field_or_zero x.
Proof.
  destruct x as [v |]; cbn; [| reflexivity].
  destruct (Qeq_bool v 0) eqn:E; [| reflexivity].
  apply Qeq_bool_iff in E. symmetry. exact E.
Qed.

(** C8. [fetchRevenueData] never throws: it returns a snapshot for every
    outcome of the request.  On a transport failure or a status other than
    200 the snapshot is the zero snapshot, whose fields are all 0 and for
    which the scale factor is 1 and the limits are the base budgets.  On
    success each field of the snapshot is the field of the payload, 0 when
    the field is missing, and [totalRevenue] is their sum. *)
Theorem fetchRevenueData_soft_failure (h : Host) (u : option string) (w : World) :
  (exists snapshot w', fetchRevenueData h u w = (Normal snapshot, w')) /\
  (soft_failure (axios_get h (analytics_url h u)) ->
   fst (fetchRevenueData h u w) = Normal zeroRevenue) /\
  (zeroRevenue = mkRevenueData 0 (mkRevenueByProduct 0 0 0 0) 0 0 /\
   calculateScaleFactor (totalMRR zeroRevenue) = 1 /\
   calculateBudgetLimits (totalMRR zeroRevenue) = baseBudgets) /\
  (forall response fin,
     axios_get h (analytics_url h u) = Resolved response ->
     status response = 200%Z ->
     data response = DataValue (Some fin) ->
     exists snapshot,
       fetchRevenueData h u w = (Normal snapshot, w) /\
       totalMRR snapshot == field_or_zero (mrr fin) /\
       dealio (revenueByProduct snapshot) == field_or_zero (dealioMRR fin) /\
       quotely (revenueByProduct snapshot) == field_or_zero (quotelyMRR fin) /\
       shopflow (revenueByProduct snapshot) == field_or_zero (shopflowMRR fin) /\
       shoplink (revenueByProduct snapshot) == field_or_zero (shoplinkMRR fin) /\
       oneTimeRevenue snapshot == field_or_zero (fin_oneTimeRevenue fin) /\
       totalRevenue snapshot = totalMRR snapshot + oneTimeRevenue snapshot) /\
  (forall response,
     axios_get h (analytics_url h u) = Resolved response ->
     status response = 200%Z ->
     data response = DataValue None ->
     fetchRevenueData h u w = (Normal zeroRevenue, w)).
Proof.
  split; [| split; [| split; [| split]]].
  - destruct (fetchRevenueData_returns h u w) as (snapshot & w' & E & _). eauto.
  - destruct (axios_get h (analytics_url h u)) as [e | response] eqn:H; cbn.
    + intros _. rewrite (fetchRevenueData_rejected _ _ _ _ H). reflexivity.
    + intros Hs. destruct (fetchRevenueData_bad_status _ _ w _ H Hs) as [text ->].
      reflexivity.
  - repeat split.
  - intros response fin H Hs Hd. eexists. split.
    + exact (fetchRevenueData_ok _ _ w _ _ H Hs Hd).
    + cbn [totalMRR revenueByProduct oneTimeRevenue totalRevenue dealio quotely
           shopflow shoplink].
      repeat split; apply or_zero_field.
  - intros response H Hs Hd. exact (fetchRevenueData_ok _ _ w _ _ H Hs Hd).
Qed.

Lemma fetchRevenueData_soft_failure_witness :
  (soft_failure (axios_get (example_host network_down morning)
                           (analytics_url (example_host network_down morning) None)) /\
   fst (fetchRevenueData (example_host network_down morning) None never_updated)
   = Normal zeroRevenue) /\
  (exists snapshot,
     fetchRevenueData (example_host (network_mrr 2370) morning) None never_updated
     = (Normal snapshot, never_updated) /\
     totalMRR snapshot == 2370 /\
     oneTimeRevenue snapshot == 0).
Proof.
  split.
  - assert (soft_failure (axios_get (example_host network_down morning)
                            (analytics_url (example_host network_down morning) None)))
      as H by exact I.
    split; [exact H |].
    exact (proj1 (proj2 (fetchRevenueData_soft_failure
                           (example_host network_down morning) None never_updated)) H).
  - destruct (proj1 (proj2 (proj2 (proj2
                (fetchRevenueData_soft_failure (example_host (network_mrr 2370) morning)
                                               None never_updated))))
                (mkResponse 200 (DataValue (Some (mkFinancial (Some 2370) None None
                                                               None None None))))
                (mkFinancial (Some 2370) None None None None None)
                eq_refl eq_refl eq_refl)
      as (snapshot & E & Hm & _ & _ & _ & _ & Ho & _).
    exists snapshot. repeat split; assumption.
Defined.

(** ** Revenue report *)

Lemma generateRevenueReport_run (h : Host) (w : World) :
  exists snapshot w',
    fetchRevenueData h None w = (Normal snapshot, w') /\
    lastUpdateDate w' = lastUpdateDate w /\
    exists texts,
      generateRevenueReport h w
      = (Normal (mkReport snapshot
                          (calculateScaleFactor (totalMRR snapshot))
                          (calculateBudgetLimits (totalMRR snapshot))
                          texts), w') /\
      texts = (if num_lt (totalMRR snapshot) 1000 then conservative_guidance
               else if num_ge (calculateScaleFactor (totalMRR snapshot)) 10
                    then beyond_cap_guidance
                    else [progress_message h
                            (calculateScaleFactor (totalMRR snapshot))
                            (inject_Z (Qceiling (totalMRR snapshot / 1000)) * 1000)]).
Proof.
  destruct (fetchRevenueData_returns h None w) as (snapshot & w' & E & Hd).
  exists snapshot, w'. split; [exact E |]. split; [exact Hd |].
  eexists. split.
  - unfold generateRevenueReport, bind. rewrite E. reflexivity.
  - reflexivity.
Qed.

(** C9. The report always returns; it leaves [lastUpdateDate] as it was
    and the world as its fetch left it.  Its recommendations follow three
    bands that exclude one another: [totalMRR < 1000] gives the
    conservative-budget guidance; a scale factor of 10 or more gives the
    investment-beyond-cap guidance; otherwise there is one progress
    message, which cites the current multiple and the milestone
    [ceil(totalMRR / 1000) * 1000]. *)
Theorem generateRevenueReport_bands (h : Host) (w : World) :
  exists report w',
    generateRevenueReport h w = (Normal report, w') /\
    lastUpdateDate w' = lastUpdateDate w /\
    fetchRevenueData h None w = (Normal (RevenueTracker.revenue report), w') /\
    let m := totalMRR (RevenueTracker.revenue report) in
    let s := RevenueTracker.scaleFactor report in
    s = calculateScaleFactor m /\
    (m < 1000 -> recommendations report = conservative_guidance) /\
    (10 <= s -> recommendations report = beyond_cap_guidance) /\
    (1000 <= m -> s < 10 ->
     recommendations report
     = [progress_message h s (inject_Z (Qceiling (m / 1000)) * 1000)]) /\
    ~ (m < 1000 /\ 10 <= s).
Proof.
  destruct (generateRevenueReport_run h w)
    as (snapshot & w' & F & Hd & texts & E & Ht).
  eexists. exists w'. split; [exact E |]. split; [exact Hd |].
  split; [exact F |].
  cbn [RevenueTracker.revenue RevenueTracker.scaleFactor recommendations].
  set (m := totalMRR snapshot) in *.
  assert (m < 1000 -> calculateScaleFactor m = 1) as Hlow.
  { intro H. destruct (calculateScaleFactor_cases m)
      as [[H' _] | [[_ E'] | (H' & _ & _)]]; [exfalso; lra_div | exact E' |
                                               exfalso; lra_div]. }
  split; [reflexivity |]. repeat split.
  - intro H. rewrite Ht. apply num_lt_true in H. rewrite H. reflexivity.
  - intro H. rewrite Ht.
    destruct (num_lt m 1000) eqn:Hm.
    + apply num_lt_true in Hm. rewrite (Hlow Hm) in H. exfalso. lra.
    + unfold num_ge. apply num_le_true in H. rewrite H. reflexivity.
  - intros H1 H2. rewrite Ht.
    apply num_lt_false in H1. rewrite H1.
    unfold num_ge. apply num_le_false in H2. rewrite H2. reflexivity.
  - intros [H1 H2]. rewrite (Hlow H1) in H2. lra.
Qed.

Lemma generateRevenueReport_bands_witness :
  (exists report w',
     generateRevenueReport (example_host (network_mrr 500) morning) never_updated
     = (Normal report, w') /\
     totalMRR (RevenueTracker.revenue report) < 1000 /\
     recommendations report = conservative_guidance) /\
  (exists report w',
     generateRevenueReport (example_host (network_mrr 15000) morning) never_updated
     = (Normal report, w') /\
     10 <= RevenueTracker.scaleFactor report /\
     recommendations report = beyond_cap_guidance) /\
  (exists report w',
     generateRevenueReport (example_host (network_mrr 2370) morning) never_updated
     = (Normal report, w') /\
     1000 <= totalMRR (RevenueTracker.revenue report) /\
     RevenueTracker.scaleFactor report < 10 /\
     recommendations report
     = ["Current scale: 2.4x. Next milestone: $3000 MRR for 3.0x scaling."]).
Proof.
  split; [| split].
  - destruct (generateRevenueReport_bands (example_host (network_mrr 500) morning)
                                          never_updated)
      as (report & w' & E & _ & _ & _ & Hband & _).
    exists report, w'. split; [exact E |].
    assert (totalMRR (RevenueTracker.revenue report) < 1000) as H.
    { vm_compute in E. injection E as <- _. reflexivity. }
    split; [exact H | exact (Hband H)].
  - destruct (generateRevenueReport_bands (example_host (network_mrr 15000) morning)
                                          never_updated)
      as (report & w' & E & _ & _ & _ & _ & Hband & _).
    exists report, w'. split; [exact E |].
    assert (10 <= RevenueTracker.scaleFactor report) as H.
    { vm_compute in E. injection E as <- _. vm_compute. discriminate. }
    split; [exact H | exact (Hband H)].
  - destruct (generateRevenueReport_bands (example_host (network_mrr 2370) morning)
                                          never_updated)
      as (report & w' & E & _ & _ & _ & _ & _ & Hband & _).
    exists report, w'. split; [exact E |].
    assert (1000 <= totalMRR (RevenueTracker.revenue report)) as H1.
    { vm_compute in E. injection E as <- _. vm_compute. discriminate. }
    assert (RevenueTracker.scaleFactor report < 10) as H2.
    { vm_compute in E. injection E as <- _. reflexivity. }
    split; [exact H1 |]. split; [exact H2 |].
    rewrite (Hband H1 H2).
    vm_compute in E. injection E as <- _. reflexivity.
Defined.

(** ** Budget updater *)

Import BudgetUpdater.

Lemma same_date_true (stored : option string) (today : string) :
  same_date stored today = true <-> stored = Some today.
Proof.
  destruct stored as [d |]; cbn.
  - rewrite String.eqb_eq. split; congruence.
  - split; discriminate.
Qed.

Lemma throttle_test (stored : option string) (today : string) (scale : number) :
  same_date stored today && num_le scale (11 # 10) = true
  <-> throttled stored today scale.
Proof.
  unfold throttled. rewrite andb_true_iff, same_date_true, num_le_true. reflexivity.
Qed.

Lemma not_throttled (stored : option string) (today : string) (scale : number) :
  stored <> Some today \/ 11 # 10 < scale <-> ~ throttled stored today scale.
Proof.
  unfold throttled. split.
  - intros [H | H] [H1 H2]; [congruence | lra].
  - intro H. destruct (same_date stored today) eqn:E.
    + apply same_date_true in E. right. apply Qnot_le_lt. tauto.
    + left. intro H'. apply same_date_true in H'. congruence.
Qed.

Section Body.

Variable tracker_report : Js RevenueTracker.RevenueReport.
Variable h : Host.

Lemma updateBudgets_body_thrown (w w1 : World) (e : JsError) :
  tracker_report w = (Thrown e, w1) ->
  updateBudgets_body tracker_report h w
  = (Normal (failure_result (message e)), w1).
Proof.
  intro H. unfold updateBudgets_body, try_catch, bind. rewrite H. reflexivity.
Qed.

Lemma updateBudgets_body_throttled (w w1 : World) (report : RevenueTracker.RevenueReport) :
  tracker_report w = (Normal report, w1) ->
  throttled (lastUpdateDate w1) (today_of h) (RevenueTracker.scaleFactor report) ->
  updateBudgets_body tracker_report h w = (Normal (result_of report), w1).
Proof.
  intros H T. apply throttle_test in T.
  unfold updateBudgets_body, try_catch, bind. rewrite H.
  unfold read_lastUpdateDate. unfold today_of in T. rewrite T. reflexivity.
Qed.

Lemma updateBudgets_body_applied (w w1 : World) (report : RevenueTracker.RevenueReport) :
  tracker_report w = (Normal report, w1) ->
  ~ throttled (lastUpdateDate w1) (today_of h) (RevenueTracker.scaleFactor report) ->
  updateBudgets_body tracker_report h w
  = (Normal (result_of report),
     mkWorld (Some (today_of h))
             (console w1 ++ update_lines h (RevenueTracker.budgets report)
                              (RevenueTracker.scaleFactor report)
                              (totalMRR (RevenueTracker.revenue report)))).
Proof.
  intros H T. rewrite <- throttle_test in T. apply not_true_is_false in T.
  unfold updateBudgets_body, try_catch, bind. rewrite H.
  unfold read_lastUpdateDate. unfold today_of in T. rewrite T.
  cbn. unfold result_of, update_lines, today_of.
  rewrite <- !app_assoc. reflexivity.
Qed.

End Body.

(** The updater as constructed always returns a successful result, computed
    from the report of its tracker; afterwards [lastUpdateDate] is the
    date of the invocation. *)
Lemma updateBudgets_run (h : Host) (w : World) :
  exists report w1,
    generateRevenueReport h w = (Normal report, w1) /\
    lastUpdateDate w1 = lastUpdateDate w /\
    RevenueTracker.scaleFactor report
    = calculateScaleFactor (totalMRR (RevenueTracker.revenue report)) /\
    RevenueTracker.budgets report
    = calculateBudgetLimits (totalMRR (RevenueTracker.revenue report)) /\
    exists w', updateBudgets h w = (Normal (result_of report), w') /\
               lastUpdateDate w' = Some (today_of h).
Proof.
  destruct (generateRevenueReport_run h w)
    as (snapshot & w1 & _ & Hd & texts & E & _).
  eexists. exists w1. split; [exact E |]. split; [exact Hd |].
  split; [reflexivity |]. split; [reflexivity |].
  unfold updateBudgets.
  destruct (same_date (lastUpdateDate w1) (today_of h)
            && num_le (calculateScaleFactor (totalMRR snapshot)) (11 # 10)) eqn:T.
  - apply throttle_test in T. eexists. split.
    + apply (updateBudgets_body_throttled _ _ _ _ _ E). exact T.
    + apply T.
  - eexists. split.
    + apply (updateBudgets_body_applied _ _ _ _ _ E).
      rewrite <- throttle_test. cbn [RevenueTracker.scaleFactor]. congruence.
    + reflexivity.
Qed.

(** C2. In every invocation in which the throttle condition does not hold
    (the stored [lastUpdateDate] is not the date of the invocation, or the
    computed scale factor exceeds 1.1) the updater writes the update to the
    console, sets [lastUpdateDate] to that date and returns the computed
    result, whose boolean is true; so it does on every new calendar day,
    whatever the scale factor. *)
Theorem updateBudgets_applies (h : Host) (w : World) :
  exists report w1,
    generateRevenueReport h w = (Normal report, w1) /\
    (lastUpdateDate w <> Some (today_of h)
     \/ 11 # 10 < RevenueTracker.scaleFactor report ->
     exists result w',
       updateBudgets h w = (Normal result, w') /\
       lastUpdateDate w' = Some (today_of h) /\
       signals_apply result = true /\
       result = result_of report /\
       console w' = (console w1 ++ update_lines h (budgets result) (scaleFactor result)
                                                (revenue result))%list) /\
    (lastUpdateDate w <> Some (today_of h) ->
     exists result w',
       updateBudgets h w = (Normal result, w') /\
       lastUpdateDate w' = Some (today_of h) /\
       signals_apply result = true).
Proof.
  destruct (updateBudgets_run h w) as (report & w1 & E & Hd & _ & _ & _).
  exists report, w1. split; [exact E |].
  assert (lastUpdateDate w <> Some (today_of h)
          \/ 11 # 10 < RevenueTracker.scaleFactor report ->
          updateBudgets h w
          = (Normal (result_of report),
             mkWorld (Some (today_of h))
                     (console w1 ++ update_lines h (RevenueTracker.budgets report)
                                      (RevenueTracker.scaleFactor report)
                                      (totalMRR (RevenueTracker.revenue report)))))
    as Happlied.
  { intro H. apply (updateBudgets_body_applied _ _ _ _ _ E).
    rewrite Hd. apply not_throttled. exact H. }
  split.
  - intro H. do 2 eexists. split; [exact (Happlied H) |].
    repeat split.
  - intro H. do 2 eexists. split; [exact (Happlied (or_introl H)) |].
    repeat split.
Qed.

Lemma updateBudgets_applies_witness :
  exists report w1,
    generateRevenueReport (example_host (network_mrr 1200) evening) updated_today
    = (Normal report, w1) /\
    11 # 10 < RevenueTracker.scaleFactor report /\
    exists result w',
      updateBudgets (example_host (network_mrr 1200) evening) updated_today
      = (Normal result, w') /\
      lastUpdateDate w' = Some "2024-03-01" /\
      signals_apply result = true.
Proof.
  destruct (updateBudgets_applies (example_host (network_mrr 1200) evening) updated_today)
    as (report & w1 & E & Happly & _).
  exists report, w1. split; [exact E |].
  assert (11 # 10 < RevenueTracker.scaleFactor report) as H.
  { vm_compute in E. injection E as <- _. reflexivity. }
  split; [exact H |].
  destruct (Happly (or_intror H)) as (result & w' & U & Hdate & Hs & _).
  exists result, w'. repeat split; assumption.
Defined.

(** C3. If the report step of [updateBudgets] throws, the updater returns
    the failure result: [success] false, the hardcoded default budgets
    (executive 300; finance cost-optimization 150, allocation 300;
    infrastructure 150), scale factor exactly 1, revenue 0 and the message
    of the exception.  The world is left as the failing step left it: the
    updater writes nothing, so a [lastUpdateDate] the step did not touch
    is unchanged. *)
Theorem updateBudgets_failure (tracker_report : Js RevenueTracker.RevenueReport)
    (h : Host) (w w1 : World) (e : JsError) :
  tracker_report w = (Thrown e, w1) ->
  lastUpdateDate w1 = lastUpdateDate w ->
  exists result w',
    updateBudgets_body tracker_report h w = (Normal result, w') /\
    success result = false /\
    budgets result = mkBudgetLimits (mkCeo 300) (mkCfo 150 300) (mkCto 150) /\
    scaleFactor result = 1 /\
    revenue result = 0 /\
    error result = Some (message e) /\
    w' = w1 /\
    lastUpdateDate w' = lastUpdateDate w.
Proof.
  intros H Hd. do 2 eexists. split.
  - exact (updateBudgets_body_thrown _ _ _ _ _ H).
  - repeat split. exact Hd.
Qed.

Lemma updateBudgets_failure_witness :
  exists result w',
    updateBudgets_body failing_report (example_host network_down morning) updated_yesterday
    = (Normal result, w') /\
    success result = false /\
    budgets result = mkBudgetLimits (mkCeo 300) (mkCfo 150 300) (mkCto 150) /\
    scaleFactor result = 1 /\
    revenue result = 0 /\
    error result = Some "socket hang up" /\
    w' = updated_yesterday /\
    lastUpdateDate w' = Some "2024-02-29".
Proof.
  exact (updateBudgets_failure failing_report (example_host network_down morning)
                               updated_yesterday updated_yesterday
                               (mkError "socket hang up") eq_refl eq_refl).
Defined.

(** C1, as the code has it.  When the stored [lastUpdateDate] is the date
    of the invocation and the computed scale factor is at most 1.1, the
    updater performs no apply step: the world after the invocation is the
    world the report step left, with no update written to the console and
    [lastUpdateDate] as it was.  It returns the computed limits in a result
    whose boolean is true, the result an applied update returns.  Hence a
    second invocation on the same day, with a scale factor of at most 1.1,
    performs no second apply step. *)
Theorem updateBudgets_throttled :
  (forall (h : Host) (w : World),
     exists report w1,
       generateRevenueReport h w = (Normal report, w1) /\
       (throttled (lastUpdateDate w) (today_of h) (RevenueTracker.scaleFactor report) ->
        updateBudgets h w = (Normal (result_of report), w1) /\
        lastUpdateDate w1 = lastUpdateDate w /\
        budgets (result_of report)
        = calculateBudgetLimits (totalMRR (RevenueTracker.revenue report)) /\
        success (result_of report) = true)) /\
  (forall (h1 h2 : Host) (w : World),
     today_of h2 = today_of h1 ->
     exists result1 w1 report2 w2,
       updateBudgets h1 w = (Normal result1, w1) /\
       generateRevenueReport h2 w1 = (Normal report2, w2) /\
       (RevenueTracker.scaleFactor report2 <= 11 # 10 ->
        updateBudgets h2 w1 = (Normal (result_of report2), w2) /\
        lastUpdateDate w2 = lastUpdateDate w1)).
Proof.
  assert (forall (h : Host) (w : World),
     exists report w1,
       generateRevenueReport h w = (Normal report, w1) /\
       (throttled (lastUpdateDate w) (today_of h) (RevenueTracker.scaleFactor report) ->
        updateBudgets h w = (Normal (result_of report), w1) /\
        lastUpdateDate w1 = lastUpdateDate w /\
        budgets (result_of report)
        = calculateBudgetLimits (totalMRR (RevenueTracker.revenue report)) /\
        success (result_of report) = true)) as Hone.
  { intros h w.
    destruct (updateBudgets_run h w) as (report & w1 & E & Hd & _ & Hb & _).
    exists report, w1. split; [exact E |]. intro T. split.
    - apply (updateBudgets_body_throttled _ _ _ _ _ E). rewrite Hd. exact T.
    - split; [exact Hd |]. split; [exact Hb | reflexivity]. }
  split; [exact Hone |].
  intros h1 h2 w Hday.
  destruct (updateBudgets_run h1 w) as (report1 & _ & _ & _ & _ & _ & w1 & U1 & Hd1).
  destruct (Hone h2 w1) as (report2 & w2 & E2 & Hthr).
  exists (result_of report1), w1, report2, w2.
  split; [exact U1 |]. split; [exact E2 |].
  intro Hs.
  assert (throttled (lastUpdateDate w1) (today_of h2)
                    (RevenueTracker.scaleFactor report2)) as T
    by (split; [rewrite Hday; exact Hd1 | exact Hs]).
  destruct (Hthr T) as (U2 & Hd2 & _). split; assumption.
Qed.

Lemma updateBudgets_throttled_witness :
  (exists report,
     throttled (lastUpdateDate updated_today)
               (today_of (example_host (network_mrr 1000) morning))
               (RevenueTracker.scaleFactor report) /\
     updateBudgets (example_host (network_mrr 1000) morning) updated_today
     = (Normal (result_of report), updated_today)) /\
  (today_of (example_host (network_mrr 1050) evening)
   = today_of (example_host (network_mrr 1000) morning) /\
   exists result1 w1 report2,
     updateBudgets (example_host (network_mrr 1000) morning) never_updated
     = (Normal result1, w1) /\
     RevenueTracker.scaleFactor report2 <= 11 # 10 /\
     updateBudgets (example_host (network_mrr 1050) evening) w1
     = (Normal (result_of report2), w1)).
Proof.
  split.
  - destruct (proj1 updateBudgets_throttled (example_host (network_mrr 1000) morning)
                    updated_today) as (report & w1 & E & Hthr).
    exists report.
    assert (throttled (lastUpdateDate updated_today)
                      (today_of (example_host (network_mrr 1000) morning))
                      (RevenueTracker.scaleFactor report)) as T.
    { vm_compute in E. injection E as <- _. split; [reflexivity |].
      vm_compute. discriminate. }
    split; [exact T |].
    destruct (Hthr T) as (U & _). rewrite U.
    vm_compute in E. injection E as _ <-. reflexivity.
  - assert (today_of (example_host (network_mrr 1050) evening)
            = today_of (example_host (network_mrr 1000) morning)) as Hday
      by reflexivity.
    split; [exact Hday |].
    destruct (proj2 updateBudgets_throttled (example_host (network_mrr 1000) morning)
                    (example_host (network_mrr 1050) evening) never_updated Hday)
      as (result1 & w1 & report2 & w2 & U1 & E2 & Hthr).
    exists result1, w1, report2. split; [exact U1 |].
    assert (RevenueTracker.scaleFactor report2 <= 11 # 10) as Hs.
    { vm_compute in U1. injection U1 as _ <-.
      vm_compute in E2. injection E2 as <- _. vm_compute. discriminate. }
    split; [exact Hs |].
    destruct (Hthr Hs) as (U2 & _). rewrite U2.
    vm_compute in U1. injection U1 as _ <-.
    vm_compute in E2. injection E2 as _ <-. reflexivity.
Defined.

(** C1, as stated, fails.  The stored date is the date of the invocation
    and the scale factor is 1, so the throttle condition holds; yet the
    result carries the "apply" signal: its boolean is true.  It is the
    very result the same call returns when nothing was applied before and
    the update is applied, and [runDailyUpdate] goes on to print that the
    budgets were updated. *)
Lemma updateBudgets_throttled_result_is_applied_result :
  lastUpdateDate updated_today
  = Some (today_of (example_host (network_mrr 1000) evening)) /\
  option_map (fun report => num_le (RevenueTracker.scaleFactor report) (11 # 10))
    (returned (generateRevenueReport (example_host (network_mrr 1000) evening)
                                     updated_today))
  = Some true /\
  option_map signals_apply
    (returned (updateBudgets (example_host (network_mrr 1000) evening) updated_today))
  = Some true /\
  returned (updateBudgets (example_host (network_mrr 1000) evening) updated_today)
  = returned (updateBudgets (example_host (network_mrr 1000) evening) never_updated) /\
  snd (updateBudgets (example_host (network_mrr 1000) evening) updated_today)
  = updated_today /\
  lastUpdateDate
    (snd (updateBudgets (example_host (network_mrr 1000) evening) never_updated))
  = Some "2024-03-01" /\
  console (snd (runDailyUpdate (example_host (network_mrr 1000) evening) updated_today))
  = [ ConsoleLog "🔄 Running daily budget update...";
      ConsoleLog "✅ Budgets updated successfully";
      ConsoleLog "   Scale Factor: 1.00x";
      ConsoleLog "   Revenue: $1000/month" ].
Proof.
  repeat split.
Qed.

(** * Further properties of the engine *)

(** ** Limits as a function of the revenue *)

Lemma calculateScaleFactor_mono (r1 r2 : number) :
  r1 <= r2 -> calculateScaleFactor r1 <= calculateScaleFactor r2.
Proof.
  intro H.
  destruct (calculateScaleFactor_cases r1) as [[A ->] | [[A ->] | (A1 & A2 & ->)]];
    destruct (calculateScaleFactor_cases r2) as [[B ->] | [[B ->] | (B1 & B2 & ->)]];
    lra_div.
Qed.

Lemma limits_le_of_scale (r1 r2 : number) :
  calculateScaleFactor r1 <= calculateScaleFactor r2 ->
  limits_le (calculateBudgetLimits r1) (calculateBudgetLimits r2).
Proof.
  intro H. unfold limits_le, calculateBudgetLimits.
  cbn [ceo cfo cto maxSpending maxCostOptimization maxBudgetAllocation
       maxInfrastructureCost].
  repeat split; apply scaled_limit_mono; solve [assumption | discriminate].
Qed.

(** X1. More revenue never lowers a budget: the scale factor and every limit
    of [calculateBudgetLimits] are non-decreasing in the monthly revenue. *)
Theorem calculateBudgetLimits_monotone_in_revenue (r1 r2 : number) :
  r1 <= r2 ->
  calculateScaleFactor r1 <= calculateScaleFactor r2 /\
  limits_le (calculateBudgetLimits r1) (calculateBudgetLimits r2).
Proof.
  intro H. pose proof (calculateScaleFactor_mono r1 r2 H) as Hs.
  split; [exact Hs | exact (limits_le_of_scale r1 r2 Hs)].
Qed.

Lemma calculateBudgetLimits_monotone_in_revenue_witness :
  (1234 # 1) <= (98765 # 10) /\
  calculateScaleFactor (1234 # 1) <= calculateScaleFactor (98765 # 10) /\
  limits_le (calculateBudgetLimits (1234 # 1)) (calculateBudgetLimits (98765 # 10)).
Proof.
  assert ((1234 # 1) <= (98765 # 10)) as H by (vm_compute; discriminate).
  split; [exact H |].
  exact (calculateBudgetLimits_monotone_in_revenue (1234 # 1) (98765 # 10) H).
Defined.

Lemma scaled_limit_at (base k : Z) (s : number) :
  s == inject_Z k -> Math_round (inject_Z base * s) = (base * k)%Z.
Proof.
  intro H. rewrite <- (Math_round_integer (base * k)).
  apply Math_round_proper. rewrite H, inject_Z_mult. reflexivity.
Qed.

Lemma calculateBudgetLimits_at (r : number) (k : Z) :
  calculateScaleFactor r == inject_Z k ->
  calculateBudgetLimits r
  = mkBudgetLimits (mkCeo (300 * k)) (mkCfo (150 * k) (300 * k)) (mkCto (150 * k)).
Proof.
  intro H. unfold calculateBudgetLimits.
  cbn [ceo cfo cto maxSpending maxCostOptimization maxBudgetAllocation
       maxInfrastructureCost baseBudgets].
  rewrite (scaled_limit_at 300 k _ H), (scaled_limit_at 150 k _ H). reflexivity.
Qed.

(** X2. The limits saturate at both ends: for every revenue of at most 1000,
    negative revenue included, they are exactly the base budgets, and for
    every revenue of 10000 or more they are exactly ten times the base
    budgets. *)
Theorem calculateBudgetLimits_saturates (r : number) :
  (r <= 1000 -> calculateBudgetLimits r = baseBudgets) /\
  (10000 <= r ->
   calculateBudgetLimits r
   = mkBudgetLimits (mkCeo 3000) (mkCfo 1500 3000) (mkCto 1500)).
Proof.
  split; intro H.
  - apply (calculateBudgetLimits_at r 1).
    destruct (calculateScaleFactor_cases r) as [[A ->] | [[A ->] | (A1 & A2 & ->)]].
    + exfalso. lra_div.
    + reflexivity.
    + change (inject_Z 1) with 1. apply Qle_antisym; lra_div.
  - apply (calculateBudgetLimits_at r 10).
    destruct (calculateScaleFactor_cases r) as [[A ->] | [[A ->] | (A1 & A2 & ->)]].
    + reflexivity.
    + exfalso. lra_div.
    + change (inject_Z 10) with 10. apply Qle_antisym; lra_div.
Qed.

Lemma calculateBudgetLimits_saturates_witness :
  ((-250 # 1) <= 1000 /\ calculateBudgetLimits (-250 # 1) = baseBudgets) /\
  (10000 <= (123456 # 10) /\
   calculateBudgetLimits (123456 # 10)
   = mkBudgetLimits (mkCeo 3000) (mkCfo 1500 3000) (mkCto 1500)).
Proof.
  assert ((-250 # 1) <= 1000) as H1 by (vm_compute; discriminate).
  assert (10000 <= (123456 # 10)) as H2 by (vm_compute; discriminate).
  split.
  - split; [exact H1 | exact (proj1 (calculateBudgetLimits_saturates (-250 # 1)) H1)].
  - split; [exact H2 | exact (proj2 (calculateBudgetLimits_saturates (123456 # 10)) H2)].
Defined.

(** ** The fetch and its fallback *)

Lemma fetchRevenueData_outcome (h : Host) (u : option string) (w : World) :
  (served h u /\
   exists snapshot,
     fetchRevenueData h u w = (Normal snapshot, w) /\
     totalRevenue snapshot = totalMRR snapshot + oneTimeRevenue snapshot) \/
  (~ served h u /\
   exists e,
     fetchRevenueData h u w
     = (Normal zeroRevenue,
        with_error_line w ("Error fetching revenue data: " ++ message e))).
Proof.
  destruct (axios_get h (analytics_url h u)) as [e | response] eqn:H.
  - right. split.
    + intros (r & f & Hr & _). congruence.
    + exists e. exact (fetchRevenueData_rejected _ _ _ _ H).
  - destruct (Z.eqb (status response) 200) eqn:Hs.
    + apply Z.eqb_eq in Hs. destruct (data response) as [| f] eqn:Hd.
      * right. split.
        -- intros (r & f & Hr & _ & Hd'). congruence.
        -- exists nullish_read_error.
           unfold fetchRevenueData, try_catch, bind, await_get.
           unfold analytics_url in H. rewrite H, Hs, Hd. reflexivity.
      * left. split; [exists response, f; auto |].
        eexists. split; [exact (fetchRevenueData_ok _ _ w _ _ H Hs Hd) | reflexivity].
    + right. split.
      * intros (r & f & Hr & Hs' & _). apply Z.eqb_neq in Hs. congruence.
      * eexists.
        unfold fetchRevenueData, try_catch, bind, await_get.
        unfold analytics_url in H. rewrite H, Hs. reflexivity.
Qed.

(** X3. Whatever the request did, the snapshot [fetchRevenueData] returns
    has [totalRevenue] equal to [totalMRR + oneTimeRevenue]. *)
Theorem fetchRevenueData_total_is_sum (h : Host) (u : option string) (w : World) :
  exists snapshot w',
    fetchRevenueData h u w = (Normal snapshot, w') /\
    totalRevenue snapshot == totalMRR snapshot + oneTimeRevenue snapshot.
Proof.
  destruct (fetchRevenueData_outcome h u w)
    as [(_ & snapshot & E & Hsum) | (_ & e & E)].
  - exists snapshot, w. split; [exact E |]. rewrite Hsum. reflexivity.
  - eexists. eexists. split; [exact E |]. reflexivity.
Qed.

(** X4. The fallback of [fetchRevenueData] is never silent and a served
    request is: when the request was answered with status 200 and a body,
    nothing is written to the console; in every other case the snapshot is
    the zero snapshot and exactly one [console.error] line, which carries
    the message of the error, is appended.  [lastUpdateDate] is never
    written. *)
Theorem fetchRevenueData_logs_fallback (h : Host) (u : option string) (w : World) :
  exists snapshot w',
    fetchRevenueData h u w = (Normal snapshot, w') /\
    lastUpdateDate w' = lastUpdateDate w /\
    ((served h u /\ w' = w) \/
     (~ served h u /\ snapshot = zeroRevenue /\
      exists e,
        console w'
        = (console w
           ++ [ConsoleError ("Error fetching revenue data: " ++ message e)])%list)).
Proof.
  destruct (fetchRevenueData_outcome h u w)
    as [(Hs & snapshot & E & _) | (Hs & e & E)].
  - exists snapshot, w. split; [exact E |]. split; [reflexivity |]. left. auto.
  - eexists. eexists. split; [exact E |]. split; [reflexivity |].
    right. split; [exact Hs |]. split; [reflexivity |]. exists e. reflexivity.
Qed.

Lemma or_string_nonempty (s b : string) : s <> "" -> or_string (Some s) b = s.
Proof.
  intro H. unfold or_string. destruct (String.eqb s "") eqn:E; [| reflexivity].
  apply String.eqb_eq in E. contradiction.
Qed.

(** X5. The request goes to [base ++ "/api/analytics"], where [base] is the
    first of the argument, the environment variable [SUPER_ADMIN_URL] and
    the operator's address that is not absent or empty: the error of a
    rejected request to that address is the one the fetch logs. *)
Theorem fetchRevenueData_address (h : Host) (w : World) (e : JsError) :
  (forall s : string,
     s <> "" ->
     axios_get h (s ++ "/api/analytics") = Rejected e ->
     fetchRevenueData h (Some s) w
     = (Normal zeroRevenue,
        with_error_line w ("Error fetching revenue data: " ++ message e))) /\
  (forall (u : option string) (v : string),
     u = None \/ u = Some "" ->
     SUPER_ADMIN_URL h = Some v -> v <> "" ->
     axios_get h (v ++ "/api/analytics") = Rejected e ->
     fetchRevenueData h u w
     = (Normal zeroRevenue,
        with_error_line w ("Error fetching revenue data: " ++ message e))) /\
  (forall u : option string,
     u = None \/ u = Some "" ->
     SUPER_ADMIN_URL h = None \/ SUPER_ADMIN_URL h = Some "" ->
     axios_get h "https://super-admin.doublevision.company/api/analytics" = Rejected e ->
     fetchRevenueData h u w
     = (Normal zeroRevenue,
        with_error_line w ("Error fetching revenue data: " ++ message e))).
Proof.
  split; [| split].
  - intros s Hs H. apply fetchRevenueData_rejected.
    unfold analytics_url. rewrite (or_string_nonempty _ _ Hs). exact H.
  - intros u v Hu Hv Hne H. apply fetchRevenueData_rejected.
    unfold analytics_url. rewrite Hv, (or_string_nonempty _ _ Hne).
    destruct Hu as [-> | ->]; exact H.
  - intros u Hu Hv H. apply fetchRevenueData_rejected.
    unfold analytics_url.
    destruct Hu as [-> | ->]; destruct Hv as [-> | ->]; exact H.
Qed.

Lemma fetchRevenueData_address_witness :
  ("https://staging.example" <> "" /\
   fetchRevenueData (example_host network_down morning)
                    (Some "https://staging.example") never_updated
   = (Normal zeroRevenue,
      with_error_line never_updated
        "Error fetching revenue data: connect ECONNREFUSED")) /\
  (fetchRevenueData
     (with_SUPER_ADMIN_URL (example_host network_down morning)
                           (Some "https://staging.example"))
     (Some "") never_updated
   = (Normal zeroRevenue,
      with_error_line never_updated
        "Error fetching revenue data: connect ECONNREFUSED")) /\
  (fetchRevenueData
     (with_SUPER_ADMIN_URL (example_host network_down morning) (Some ""))
     None never_updated
   = (Normal zeroRevenue,
      with_error_line never_updated
        "Error fetching revenue data: connect ECONNREFUSED")).
Proof.
  assert ("https://staging.example" <> "") as Hne by discriminate.
  split; [| split].
  - split; [exact Hne |].
    exact (proj1 (fetchRevenueData_address (example_host network_down morning)
                    never_updated (mkError "connect ECONNREFUSED"))
                 "https://staging.example" Hne eq_refl).
  - exact (proj1 (proj2 (fetchRevenueData_address
                    (with_SUPER_ADMIN_URL (example_host network_down morning)
                                          (Some "https://staging.example"))
                    never_updated (mkError "connect ECONNREFUSED")))
                 (Some "") "https://staging.example" (or_intror eq_refl)
                 eq_refl Hne eq_refl).
  - exact (proj2 (proj2 (fetchRevenueData_address
                    (with_SUPER_ADMIN_URL (example_host network_down morning) (Some ""))
                    never_updated (mkError "connect ECONNREFUSED")))
                 None (or_introl eq_refl) (or_intror eq_refl) eq_refl).
Defined.

(** ** The progress message of the report *)

Lemma milestone_bounds (m : number) :
  1000 <= m -> m < 10000 ->
  let k := Qceiling (m / 1000) in
  (1 <= k <= 10)%Z /\
  m <= inject_Z k * 1000 /\
  inject_Z k * 1000 < m + 1000 /\
  (forall j : Z, m == inject_Z j * 1000 -> k = j).
Proof.
  intros H1 H2 k.
  pose proof (Qle_ceiling (m / 1000)) as Hup.
  pose proof (Qceiling_lt (m / 1000)) as Hlow.
  fold k in Hup, Hlow.
  unfold Z.sub in Hlow. rewrite inject_Z_plus in Hlow.
  change (inject_Z (- (1))) with (- (1)) in Hlow.
  assert (0 < inject_Z k) as Hpos by lra_div.
  assert (inject_Z k < 11) as Hlt by lra_div.
  change 0 with (inject_Z 0) in Hpos. change 11 with (inject_Z 11) in Hlt.
  rewrite <- Zlt_Qlt in Hpos, Hlt.
  split; [lia |]. split; [lra_div |]. split; [lra_div |].
  intros j Hj. unfold k.
  rewrite <- (Qceiling_Z j). apply Qceiling_comp. rewrite Hj. field.
Qed.

(** X6. In the progress band, which is any revenue from 1000 up to but not
    including 10000, the one recommendation cites a milestone that is a
    whole multiple [k * 1000] with [1 <= k <= 10], is at least the revenue
    and less than 1000 above it.  When the revenue is itself a whole
    multiple of 1000 the milestone cited as next is the revenue already
    reached. *)
Theorem generateRevenueReport_milestone (h : Host) (w : World) :
  exists report w',
    generateRevenueReport h w = (Normal report, w') /\
    let m := totalMRR (RevenueTracker.revenue report) in
    (1000 <= m -> m < 10000 ->
     exists k : Z,
       recommendations report
       = [progress_message h (RevenueTracker.scaleFactor report) (inject_Z k * 1000)] /\
       (1 <= k <= 10)%Z /\
       m <= inject_Z k * 1000 /\
       inject_Z k * 1000 < m + 1000 /\
       (forall j : Z, m == inject_Z j * 1000 -> k = j)).
Proof.
  destruct (generateRevenueReport_run h w)
    as (snapshot & w' & _ & _ & texts & E & Ht).
  eexists. exists w'. split; [exact E |].
  cbn [RevenueTracker.revenue RevenueTracker.scaleFactor recommendations].
  intros H1 H2. exists (Qceiling (totalMRR snapshot / 1000)).
  split; [| exact (milestone_bounds _ H1 H2)].
  rewrite Ht.
  apply num_lt_false in H1. rewrite H1.
  assert (num_ge (calculateScaleFactor (totalMRR snapshot)) 10 = false) as Hs.
  { unfold num_ge. apply num_le_false. apply num_lt_false in H1.
    destruct (calculateScaleFactor_cases (totalMRR snapshot))
      as [[A _] | [[A _] | (_ & _ & ->)]]; lra_div. }
  rewrite Hs. reflexivity.
Qed.

Lemma generateRevenueReport_milestone_witness :
  exists report w',
    generateRevenueReport (example_host (network_mrr 2000) morning) never_updated
    = (Normal report, w') /\
    1000 <= totalMRR (RevenueTracker.revenue report) /\
    totalMRR (RevenueTracker.revenue report) < 10000 /\
    recommendations report
    = ["Current scale: 2.0x. Next milestone: $2000 MRR for 2.0x scaling."].
Proof.
  destruct (generateRevenueReport_milestone (example_host (network_mrr 2000) morning)
                                            never_updated)
    as (report & w' & E & Hband).
  exists report, w'. split; [exact E |].
  assert (1000 <= totalMRR (RevenueTracker.revenue report)) as H1.
  { vm_compute in E. injection E as <- _. vm_compute. discriminate. }
  assert (totalMRR (RevenueTracker.revenue report) < 10000) as H2.
  { vm_compute in E. injection E as <- _. reflexivity. }
  split; [exact H1 |]. split; [exact H2 |].
  destruct (Hband H1 H2) as (k & Hrec & _ & _ & _ & Hk).
  assert (k = 2%Z) as ->.
  { apply Hk. vm_compute in E. injection E as <- _. reflexivity. }
  rewrite Hrec. vm_compute in E. injection E as <- _. reflexivity.
Defined.

(** ** The updater: results, outage, threshold *)

(** What the constructed updater does, with the console it leaves. *)
Lemma updateBudgets_trace (h : Host) (w : World) :
  exists report w1 w',
    generateRevenueReport h w = (Normal report, w1) /\
    lastUpdateDate w1 = lastUpdateDate w /\
    (exists fetched, console w1 = (console w ++ fetched)%list) /\
    updateBudgets h w = (Normal (result_of report), w') /\
    lastUpdateDate w' = Some (today_of h) /\
    (exists applied, console w' = (console w1 ++ applied)%list).
Proof.
  destruct (generateRevenueReport_run h w)
    as (snapshot & w1 & F & Hd & texts & E & _).
  eexists. exists w1.
  assert (exists fetched, console w1 = (console w ++ fetched)%list) as Hc.
  { destruct (fetchRevenueData_outcome h None w)
      as [(_ & snapshot' & F' & _) | (_ & e & F')]; rewrite F' in F;
      injection F as _ <-.
    - exists []. symmetry. apply app_nil_r.
    - eexists. reflexivity. }
  unfold updateBudgets.
  destruct (same_date (lastUpdateDate w1) (today_of h)
            && num_le (calculateScaleFactor (totalMRR snapshot)) (11 # 10)) eqn:T.
  - apply throttle_test in T. exists w1.
    split; [exact E |]. split; [exact Hd |]. split; [exact Hc |].
    split; [apply (updateBudgets_body_throttled _ _ _ _ _ E); exact T |].
    split; [apply T |]. exists []. symmetry. apply app_nil_r.
  - eexists.
    split; [exact E |]. split; [exact Hd |]. split; [exact Hc |].
    split.
    + apply (updateBudgets_body_applied _ _ _ _ _ E).
      rewrite <- throttle_test. cbn [RevenueTracker.scaleFactor]. congruence.
    + split; [reflexivity |]. eexists. reflexivity.
Qed.

(** X8. With its own tracker, and an analytics endpoint whose financial
    fields are numbers or absent (whatever else it does: reject, answer
    with any status, send no body), the updater never returns the failure
    result: every invocation returns [success] true and no [error], with a
    scale factor between 1 and 10, and leaves [lastUpdateDate] at the date
    of the invocation. *)
Theorem updateBudgets_always_succeeds (h : Host) (w : World) :
  exists result w',
    updateBudgets h w = (Normal result, w') /\
    success result = true /\
    error result = None /\
    1 <= scaleFactor result /\ scaleFactor result <= 10 /\
    lastUpdateDate w' = Some (today_of h).
Proof.
  destruct (updateBudgets_run h w) as (report & w1 & _ & _ & Hs & _ & w' & U & Hd).
  exists (result_of report), w'. split; [exact U |].
  split; [reflexivity |]. split; [reflexivity |].
  unfold result_of; cbn [scaleFactor]. rewrite Hs.
  destruct (calculateScaleFactor_range (totalMRR (RevenueTracker.revenue report))).
  auto.
Qed.

Lemma generateRevenueReport_outage (h : Host) (w : World) :
  ~ served h None ->
  exists e,
    generateRevenueReport h w
    = (Normal (RevenueTracker.mkReport zeroRevenue 1 baseBudgets conservative_guidance),
       with_error_line w ("Error fetching revenue data: " ++ message e)).
Proof.
  intro H.
  destruct (fetchRevenueData_outcome h None w) as [(Hs & _) | (_ & e & F)];
    [contradiction |].
  exists e. unfold generateRevenueReport, bind. rewrite F. reflexivity.
Qed.

(** X9. An analytics outage is not a failure of the updater.  When the
    request is not served, [updateBudgets] returns [success] true with the
    base budgets, scale factor 1 and revenue 0, the numbers of the failure
    result, and sets [lastUpdateDate].  On a day without a previous update
    it applies that result, writing the update with the base budgets after
    the fetch error; on a day with one it writes only the fetch error. *)
Theorem updateBudgets_outage (h : Host) (w : World) :
  ~ served h None ->
  exists e w',
    updateBudgets h w = (Normal (mkResult true baseBudgets 1 0 None), w') /\
    lastUpdateDate w' = Some (today_of h) /\
    (lastUpdateDate w = Some (today_of h) ->
     w' = with_error_line w ("Error fetching revenue data: " ++ message e)) /\
    (lastUpdateDate w <> Some (today_of h) ->
     w' = mkWorld (Some (today_of h))
            (console w
             ++ ConsoleError ("Error fetching revenue data: " ++ message e)
                :: update_lines h baseBudgets 1 0)).
Proof.
  intro H. destruct (generateRevenueReport_outage h w H) as (e & E).
  exists e. unfold updateBudgets.
  destruct (same_date (lastUpdateDate w) (today_of h)) eqn:D.
  - apply same_date_true in D. eexists. split.
    + apply (updateBudgets_body_throttled _ _ _ _ _ E).
      split; [exact D | vm_compute; discriminate].
    + split; [exact D |]. split; [reflexivity | congruence].
  - assert (lastUpdateDate w <> Some (today_of h)) as D'
      by (intro A; apply same_date_true in A; congruence).
    eexists. split.
    + apply (updateBudgets_body_applied _ _ _ _ _ E).
      intros [A _]. exact (D' A).
    + split; [reflexivity |]. split; [contradiction |].
      intros _. unfold with_error_line. cbn [console lastUpdateDate].
      rewrite <- app_assoc. reflexivity.
Qed.

Lemma updateBudgets_outage_witness :
  ~ served (example_host (network_status 503) morning) None /\
  exists w',
    updateBudgets (example_host (network_status 503) morning) updated_yesterday
    = (Normal (mkResult true baseBudgets 1 0 None), w') /\
    lastUpdateDate w' = Some "2024-03-01".
Proof.
  assert (~ served (example_host (network_status 503) morning) None) as H.
  { intros (response & f & Hr & Hs & _).
    vm_compute in Hr. injection Hr as <-. discriminate Hs. }
  split; [exact H |].
  destruct (updateBudgets_outage (example_host (network_status 503) morning)
                                 updated_yesterday H) as (e & w' & U & Hd & _).
  exists w'. split; [exact U | exact Hd].
Defined.

Lemma scale_within_threshold (m : number) :
  calculateScaleFactor m <= 11 # 10 <-> m <= 1100.
Proof.
  destruct (calculateScaleFactor_cases m) as [[A ->] | [[A ->] | (A1 & A2 & ->)]];
    split; intro H; lra_div.
Qed.

(** X10. The same-day threshold read on the revenue.  On a day on which
    an update was already applied, an invocation is throttled exactly when
    the monthly revenue is at most 1100: then the world is left as the
    report left it; above 1100 the update is written again, whatever the
    revenue was at the earlier invocation. *)
Theorem updateBudgets_threshold_in_revenue (h : Host) (w : World) :
  lastUpdateDate w = Some (today_of h) ->
  exists report w1,
    generateRevenueReport h w = (Normal report, w1) /\
    (totalMRR (RevenueTracker.revenue report) <= 1100 ->
     updateBudgets h w = (Normal (result_of report), w1)) /\
    (1100 < totalMRR (RevenueTracker.revenue report) ->
     updateBudgets h w
     = (Normal (result_of report),
        mkWorld (Some (today_of h))
                (console w1 ++ update_lines h (RevenueTracker.budgets report)
                                 (RevenueTracker.scaleFactor report)
                                 (totalMRR (RevenueTracker.revenue report))))).
Proof.
  intro D.
  destruct (updateBudgets_run h w) as (report & w1 & E & Hd & Hs & _ & _).
  exists report, w1. split; [exact E |]. split; intro H.
  - apply (updateBudgets_body_throttled _ _ _ _ _ E).
    split; [congruence |]. rewrite Hs. apply scale_within_threshold. exact H.
  - apply (updateBudgets_body_applied _ _ _ _ _ E).
    intros [_ A]. rewrite Hs in A. apply scale_within_threshold in A. lra.
Qed.

Lemma updateBudgets_threshold_in_revenue_witness :
  lastUpdateDate updated_today
  = Some (today_of (example_host (network_mrr 1100) evening)) /\
  (exists report,
     totalMRR (RevenueTracker.revenue report) <= 1100 /\
     updateBudgets (example_host (network_mrr 1100) evening) updated_today
     = (Normal (result_of report), updated_today)) /\
  (exists report w',
     1100 < totalMRR (RevenueTracker.revenue report) /\
     updateBudgets (example_host (network_mrr 1101) evening) updated_today
     = (Normal (result_of report), w') /\
     List.length (console w') = 7%nat).
Proof.
  assert (lastUpdateDate updated_today
          = Some (today_of (example_host (network_mrr 1100) evening))) as D
    by reflexivity.
  split; [exact D |]. split.
  - destruct (updateBudgets_threshold_in_revenue
                (example_host (network_mrr 1100) evening) updated_today D)
      as (report & w1 & E & Hlow & _).
    exists report.
    assert (totalMRR (RevenueTracker.revenue report) <= 1100) as H.
    { vm_compute in E. injection E as <- _. vm_compute. discriminate. }
    split; [exact H |]. rewrite (Hlow H).
    vm_compute in E. injection E as _ <-. reflexivity.
  - destruct (updateBudgets_threshold_in_revenue
                (example_host (network_mrr 1101) evening) updated_today D)
      as (report & w1 & E & _ & Hhigh).
    exists report.
    assert (1100 < totalMRR (RevenueTracker.revenue report)) as H.
    { vm_compute in E. injection E as <- _. reflexivity. }
    eexists. split; [exact H |]. split; [exact (Hhigh H) |].
    vm_compute in E. injection E as _ <-. reflexivity.
Defined.

(** ** The daily run *)

(** X12. With its own tracker, and an analytics endpoint whose financial
    fields are numbers or absent, the daily run always reports success, an
    analytics outage included: the console receives the announcement, then
    what the fetch and the update wrote, then the three success lines with
    the scale factor and the revenue of the result, and [lastUpdateDate]
    is left at the date of the run. *)
Theorem runDailyUpdate_reports_success (h : Host) (w : World) :
  exists result w1 w' written,
    updateBudgets h (with_log_line w "🔄 Running daily budget update...")
    = (Normal result, w1) /\
    console w1
    = (console w ++ ConsoleLog "🔄 Running daily budget update..." :: written)%list /\
    runDailyUpdate h w = (Normal tt, w') /\
    success result = true /\
    lastUpdateDate w' = Some (today_of h) /\
    console w' = (console w1 ++ success_lines h result)%list.
Proof.
  set (w0 := with_log_line w "🔄 Running daily budget update...").
  destruct (updateBudgets_trace h w0)
    as (report & w1 & w2 & _ & _ & (fetched & Hc1) & U & Hd & (applied & Hc2)).
  exists (result_of report), w2.
  exists (mkWorld (lastUpdateDate w2) (console w2 ++ success_lines h (result_of report))).
  exists (fetched ++ applied)%list.
  split; [exact U |]. split; [| split; [| split; [| split]]].
  - rewrite Hc2, Hc1. unfold w0, with_log_line. cbn [console].
    rewrite <- !app_assoc. reflexivity.
  - unfold runDailyUpdate, runDailyUpdate_body, bind.
    change (console_log "🔄 Running daily budget update..." w) with (Normal tt, w0).
    cbv beta iota. fold (updateBudgets h). rewrite U.
    unfold result_of at 1. cbn [success]. unfold console_log, success_lines.
    cbn. rewrite <- !app_assoc. reflexivity.
  - reflexivity.
  - exact Hd.
  - reflexivity.
Qed.

(** ** The date of an invocation *)

Lemma split_head_before (sep : ascii) (d rest : string) :
  lacks sep d -> split_head sep (d ++ String sep rest) = d.
Proof.
  induction d as [| c d IH]; cbn.
  - intros _. rewrite Ascii.eqb_refl. reflexivity.
  - intros [Hc Hd]. apply Ascii.eqb_neq in Hc. rewrite Hc, (IH Hd). reflexivity.
Qed.

(** X13. The stored key is the date part of the clock's ISO timestamp: after
    an invocation at [d ++ "T" ++ time], where [d] holds no "T",
    [lastUpdateDate] is [d], so two invocations with the same date part
    count as the same day whatever their times. *)
Theorem updateBudgets_stores_date_part (h : Host) (w : World) (d time : string) :
  lacks "T" d ->
  Date_toISOString h = d ++ String "T" time ->
  exists result w',
    updateBudgets h w = (Normal result, w') /\
    lastUpdateDate w' = Some d.
Proof.
  intros Hd Hclock.
  destruct (updateBudgets_run h w) as (report & _ & _ & _ & _ & _ & w' & U & Hdate).
  exists (result_of report), w'. split; [exact U |].
  rewrite Hdate. unfold today_of. rewrite Hclock, (split_head_before _ _ _ Hd).
  reflexivity.
Qed.

Lemma updateBudgets_stores_date_part_witness :
  lacks "T" "2024-03-01" /\
  exists result w',
    updateBudgets (example_host (network_mrr 2370) evening) never_updated
    = (Normal result, w') /\
    lastUpdateDate w' = Some "2024-03-01".
Proof.
  assert (lacks "T" "2024-03-01") as H by (cbn; repeat split; discriminate).
  split; [exact H |].
  exact (updateBudgets_stores_date_part
           (example_host (network_mrr 2370) evening) never_updated
           "2024-03-01" "17:45:00.000Z" H eq_refl).
Defined.

(** * Properties of the internal routes *)

Section Routes.

Import InternalRoutes.

Lemma falsy_false (a : option string) :
  falsy a = false <-> exists k, a = Some k /\ k <> "".
Proof.
  destruct a as [s |]; cbn.
  - rewrite String.eqb_neq. split.
    + intro H. exists s. auto.
    + intros (k & [= ->] & H). exact H.
  - split; [discriminate | intros (k & H & _); discriminate].
Qed.

Lemma differs_false (a b : option string) : differs a b = false <-> a = b.
Proof.
  destruct a as [x |], b as [y |]; cbn; try (split; congruence).
  rewrite negb_false_iff, String.eqb_eq. split; congruence.
Qed.

Lemma env_or_unset (a b : option string) : unset a -> env_or a b = b.
Proof. intros [-> | ->]; reflexivity. Qed.

Lemma env_or_set (s : string) (b : option string) :
  s <> "" -> env_or (Some s) b = Some s.
Proof.
  intro H. cbn. apply String.eqb_neq in H. rewrite H. reflexivity.
Qed.

Lemma set_or_unset (a : option string) :
  unset a \/ exists s, a = Some s /\ s <> "".
Proof.
  destruct a as [s |]; [| left; left; reflexivity].
  destruct (String.eqb s "") eqn:E.
  - apply String.eqb_eq in E. subst. left. right. reflexivity.
  - apply String.eqb_neq in E. right. exists s. auto.
Qed.

Lemma unset_not_set (a : option string) (s : string) :
  unset a -> a = Some s -> s = "".
Proof. intros [-> | ->] [= <-]; reflexivity || discriminate. Qed.

(** X14. The API-key hook lets a request through exactly when its
    [x-api-key] header is a non-empty string equal to the configured key,
    which is [API_KEY] when that is set and not empty, and
    [INTERNAL_API_KEY] otherwise; every other request gets the 401
    reply. *)
Theorem onRequest_passes_iff (env : ProcessEnv) (x_api_key : option string) :
  (onRequest env x_api_key = None <->
   exists k,
     x_api_key = Some k /\ k <> "" /\
     (API_KEY env = Some k \/ (unset (API_KEY env) /\ INTERNAL_API_KEY env = Some k))) /\
  (onRequest env x_api_key = None \/ onRequest env x_api_key = Some unauthorized).
Proof.
  unfold onRequest.
  destruct (falsy x_api_key || differs x_api_key
              (env_or (API_KEY env) (INTERNAL_API_KEY env))) eqn:T.
  - split; [| right; reflexivity].
    split; [discriminate |].
    intros (k & -> & Hk & Hkey). exfalso.
    apply orb_true_iff in T. destruct T as [T | T].
    + apply String.eqb_eq in T. contradiction.
    + apply not_false_iff_true in T. apply T. apply differs_false.
      destruct Hkey as [H | [Hu H]].
      * rewrite H, (env_or_set _ _ Hk). reflexivity.
      * rewrite (env_or_unset _ _ Hu), H. reflexivity.
  - split; [| left; reflexivity].
    split; [| reflexivity]. intros _.
    apply orb_false_iff in T. destruct T as [Tf Td].
    apply falsy_false in Tf. destruct Tf as (k & -> & Hk).
    apply differs_false in Td. exists k. split; [reflexivity |]. split; [exact Hk |].
    destruct (set_or_unset (API_KEY env)) as [Hu | (s & Hs & Hne)].
    + right. rewrite (env_or_unset _ _ Hu) in Td. auto.
    + left. rewrite Hs, (env_or_set _ _ Hne) in Td. congruence.
Qed.

Lemma onRequest_passes_iff_witness :
  onRequest Examples.with_fallback_key (Some "s3cret") = None /\
  onRequest Examples.with_fallback_key (Some "") = Some unauthorized.
Proof.
  split.
  - apply (proj1 (onRequest_passes_iff Examples.with_fallback_key (Some "s3cret"))).
    exists "s3cret". split; [reflexivity |]. split; [discriminate |].
    right. split; [right |]; reflexivity.
  - destruct (proj2 (onRequest_passes_iff Examples.with_fallback_key (Some "")))
      as [H | H]; [discriminate H | exact H].
Defined.

(** X15. The hook fails closed: when neither [API_KEY] nor
    [INTERNAL_API_KEY] is set to a non-empty string, every request is
    answered with 401, whatever its header; and once [API_KEY] is set,
    the value of [INTERNAL_API_KEY] no longer opens the door. *)
Theorem onRequest_fails_closed (env : ProcessEnv) :
  (unset (API_KEY env) -> unset (INTERNAL_API_KEY env) ->
   forall x_api_key, onRequest env x_api_key = Some unauthorized) /\
  (forall primary fallback,
     API_KEY env = Some primary -> primary <> "" ->
     INTERNAL_API_KEY env = Some fallback -> fallback <> primary ->
     onRequest env (Some fallback) = Some unauthorized).
Proof.
  split.
  - intros H1 H2 x_api_key. unfold onRequest.
    rewrite (env_or_unset _ _ H1).
    destruct x_api_key as [k |]; [| reflexivity].
    destruct (String.eqb k "") eqn:E; cbn; rewrite E; [reflexivity |].
    cbn. destruct H2 as [-> | ->]; cbn; [reflexivity |].
    rewrite E. reflexivity.
  - intros primary fallback H1 Hne H2 Hd. unfold onRequest.
    rewrite H1, (env_or_set _ _ Hne). cbn.
    apply String.eqb_neq in Hd. rewrite Hd, orb_true_r. reflexivity.
Qed.

Lemma onRequest_fails_closed_witness :
  (unset (API_KEY Examples.no_keys) /\ unset (INTERNAL_API_KEY Examples.no_keys) /\
   onRequest Examples.no_keys (Some "anything") = Some unauthorized /\
   onRequest Examples.no_keys None = Some unauthorized) /\
  onRequest (mkEnv (Some "primary") (Some "fallback") None None None) (Some "fallback")
  = Some unauthorized.
Proof.
  assert (unset (API_KEY Examples.no_keys)) as H1 by (left; reflexivity).
  assert (unset (INTERNAL_API_KEY Examples.no_keys)) as H2 by (right; reflexivity).
  split.
  - split; [exact H1 |]. split; [exact H2 |].
    split; exact (proj1 (onRequest_fails_closed Examples.no_keys) H1 H2 _).
  - apply (proj2 (onRequest_fails_closed
                    (mkEnv (Some "primary") (Some "fallback") None None None))
                 "primary" "fallback"); try reflexivity; discriminate.
Defined.

(** A variable cannot be both unset and set to a non-empty string. *)
Ltac clash :=
  match goal with
  | U : unset ?a, H : ?a = Some ?t, N : ?t <> "" |- _ =>
      exfalso; apply N; exact (unset_not_set a t U H)
  end.

Lemma getMetaToken_of (env : ProcessEnv) (chosen : option string) :
  env_or (env_or (META_ACCESS_TOKEN env) (FACEBOOK_ACCESS_TOKEN env))
         (INSTAGRAM_ACCESS_TOKEN env) = chosen ->
  getMetaToken env
  = match chosen with
    | Some t => if String.eqb t "" then
                  Err (OtherError (mkErrorInfo "META_ACCESS_TOKEN not configured"
                                               JsUndefined))
                else Ok t
    | None => Err (OtherError (mkErrorInfo "META_ACCESS_TOKEN not configured"
                                           JsUndefined))
    end.
Proof.
  intro H. unfold getMetaToken. rewrite H.
  destruct chosen as [t |]; cbn; [| reflexivity].
  destruct (String.eqb t "") eqn:E; [reflexivity |]. rewrite E. reflexivity.
Qed.

Lemma getMetaToken_unset (env : ProcessEnv) :
  unset (META_ACCESS_TOKEN env) -> unset (FACEBOOK_ACCESS_TOKEN env) ->
  unset (INSTAGRAM_ACCESS_TOKEN env) ->
  getMetaToken env
  = Err (OtherError (mkErrorInfo "META_ACCESS_TOKEN not configured" JsUndefined)).
Proof.
  intros H1 H2 H3.
  rewrite (getMetaToken_of env (INSTAGRAM_ACCESS_TOKEN env)).
  - destruct H3 as [-> | ->]; reflexivity.
  - rewrite (env_or_unset _ _ H1), (env_or_unset _ _ H2). reflexivity.
Qed.

(** X16. [getMetaToken] returns the first of [META_ACCESS_TOKEN],
    [FACEBOOK_ACCESS_TOKEN] and [INSTAGRAM_ACCESS_TOKEN] that is set and not
    empty, so never an empty token; it throws "META_ACCESS_TOKEN not
    configured" exactly when none of the three is. *)
Theorem getMetaToken_first_configured (env : ProcessEnv) :
  (forall t,
     getMetaToken env = Ok t <->
     t <> "" /\
     (META_ACCESS_TOKEN env = Some t \/
      (unset (META_ACCESS_TOKEN env) /\ FACEBOOK_ACCESS_TOKEN env = Some t) \/
      (unset (META_ACCESS_TOKEN env) /\ unset (FACEBOOK_ACCESS_TOKEN env) /\
       INSTAGRAM_ACCESS_TOKEN env = Some t))) /\
  (getMetaToken env
   = Err (OtherError (mkErrorInfo "META_ACCESS_TOKEN not configured" JsUndefined))
   <-> unset (META_ACCESS_TOKEN env) /\ unset (FACEBOOK_ACCESS_TOKEN env) /\
       unset (INSTAGRAM_ACCESS_TOKEN env)).
Proof.
  destruct (set_or_unset (META_ACCESS_TOKEN env)) as [U1 | (s1 & E1 & N1)].
  - destruct (set_or_unset (FACEBOOK_ACCESS_TOKEN env)) as [U2 | (s2 & E2 & N2)].
    + destruct (set_or_unset (INSTAGRAM_ACCESS_TOKEN env)) as [U3 | (s3 & E3 & N3)].
      * rewrite (getMetaToken_unset env U1 U2 U3). split.
        -- intro t. split; [discriminate |].
           intros (Ht & [H | [[_ H] | (_ & _ & H)]]); clash.
        -- split; auto.
      * rewrite (getMetaToken_of env (Some s3))
          by (rewrite (env_or_unset _ _ U1), (env_or_unset _ _ U2); exact E3).
        apply String.eqb_neq in N3 as N3'. rewrite N3'. split.
        -- intro t. split.
           ++ intros [= <-]. split; [exact N3 |]. right. right. auto.
           ++ intros (Ht & [H | [[_ H] | (_ & _ & H)]]); [clash | clash | congruence].
        -- split; [discriminate |]. intros (_ & _ & U3). clash.
    + rewrite (getMetaToken_of env (Some s2))
        by (rewrite (env_or_unset _ _ U1), E2; apply env_or_set; exact N2).
      apply String.eqb_neq in N2 as N2'. rewrite N2'. split.
      * intro t. split.
        -- intros [= <-]. split; [exact N2 |]. right. left. auto.
        -- intros (Ht & [H | [[_ H] | (_ & U2 & _)]]); [clash | congruence | clash].
      * split; [discriminate |]. intros (_ & U2 & _). clash.
  - rewrite (getMetaToken_of env (Some s1))
      by (rewrite E1, (env_or_set _ _ N1); apply env_or_set; exact N1).
    apply String.eqb_neq in N1 as N1'. rewrite N1'. split.
    + intro t. split.
      * intros [= <-]. split; [exact N1 |]. left. exact E1.
      * intros (Ht & [H | [[U1 _] | (U1 & _)]]); [congruence | clash | clash].
    + split; [discriminate |]. intros (U1 & _). clash.
Qed.

Lemma getMetaToken_first_configured_witness :
  getMetaToken Examples.with_fallback_key = Ok "fb-token" /\
  getMetaToken Examples.no_keys
  = Err (OtherError (mkErrorInfo "META_ACCESS_TOKEN not configured" JsUndefined)).
Proof.
  split.
  - apply (proj1 (getMetaToken_first_configured Examples.with_fallback_key) "fb-token").
    split; [discriminate |]. right. left. split; [left |]; reflexivity.
  - apply (proj2 (getMetaToken_first_configured Examples.no_keys)).
    repeat split; left; reflexivity.
Defined.

(** ** The Meta Graph proxy *)

Lemma metaGet_without_token (env : ProcessEnv) (svc : Services) (path : string)
    (params : list (string * JsValue)) (t : Trace) :
  getMetaToken env = Err not_configured ->
  metaGet env svc path params t = (Err not_configured, t).
Proof.
  intro H. unfold metaGet, and_then, of_result. rewrite H. reflexivity.
Qed.

Lemma metaGet_with_token (env : ProcessEnv) (svc : Services) (path : string)
    (params : list (string * JsValue)) (t : Trace) (token : string) :
  getMetaToken env = Ok token ->
  metaGet env svc path params t
  = (graph_get svc ("https://graph.facebook.com/v18.0" ++ path)
               (with_access_token params (JsString token)),
     with_graph_request t ("https://graph.facebook.com/v18.0" ++ path)
                        (with_access_token params (JsString token))).
Proof.
  intro H. unfold metaGet, and_then, of_result. rewrite H. reflexivity.
Qed.

(** X17. Without a configured token the Meta handlers send nothing to the
    Graph API.  [whoami] answers 500 with the error "META_ACCESS_TOKEN not
    configured" and logs it; [assets] answers 200 with three empty lists
    and logs nothing. *)
Theorem meta_routes_without_token (env : ProcessEnv) (svc : Services) (t : Trace) :
  unset (META_ACCESS_TOKEN env) -> unset (FACEBOOK_ACCESS_TOKEN env) ->
  unset (INSTAGRAM_ACCESS_TOKEN env) ->
  get_meta_whoami env svc t
  = (Ok (meta_failure (JsString "META_ACCESS_TOKEN not configured")),
     with_logged t not_configured) /\
  get_meta_assets env svc t
  = (Ok (mkReply 200 (JsObject [("ok", JsBool true);
                                ("businesses", JsArray []);
                                ("adaccounts", JsArray []);
                                ("pages", JsArray [])])),
     t).
Proof.
  intros H1 H2 H3. pose proof (getMetaToken_unset env H1 H2 H3) as H.
  fold not_configured in H. split.
  - unfold get_meta_whoami, catching, and_then.
    rewrite (metaGet_without_token _ _ _ _ _ H). reflexivity.
  - unfold get_meta_assets, catching, and_then, or_empty_data, catching.
    repeat (rewrite (metaGet_without_token _ _ _ _ _ H); cbv beta iota delta [pure]).
    reflexivity.
Qed.

Lemma meta_routes_without_token_witness :
  get_meta_whoami Examples.no_keys Examples.services_up Examples.quiet
  = (Ok (meta_failure (JsString "META_ACCESS_TOKEN not configured")),
     mkTrace [] [] [not_configured]) /\
  get_meta_assets Examples.no_keys Examples.services_up Examples.quiet
  = (Ok (mkReply 200 (JsObject [("ok", JsBool true);
                                ("businesses", JsArray []);
                                ("adaccounts", JsArray []);
                                ("pages", JsArray [])])),
     Examples.quiet).
Proof.
  exact (meta_routes_without_token Examples.no_keys Examples.services_up Examples.quiet
           (or_introl eq_refl) (or_introl eq_refl) (or_introl eq_refl)).
Defined.

(** X18. With a token, [whoami] sends exactly one request, to [/me] of the
    Graph API with the fields [id,name] and the token as [access_token].
    It answers 200 with the payload as [me]; when the request fails it
    answers 500, logs the error, and gives as [error] the body of the
    failed response when that is truthy and the message of the error
    otherwise.  The handler itself never throws. *)
Theorem get_meta_whoami_with_token (env : ProcessEnv) (svc : Services) (t : Trace)
    (token : string) :
  getMetaToken env = Ok token ->
  let url := "https://graph.facebook.com/v18.0/me" in
  let params := [("fields", JsString "id,name"); ("access_token", JsString token)] in
  (forall me,
     graph_get svc url params = Ok me ->
     get_meta_whoami env svc t
     = (Ok (mkReply 200 (JsObject [("ok", JsBool true); ("me", me)])),
        with_graph_request t url params)) /\
  (forall info,
     graph_get svc url params = Err (OtherError info) ->
     get_meta_whoami env svc t
     = (Ok (meta_failure (if truthy (response_data info) then response_data info
                          else JsString (error_message info))),
        with_logged (with_graph_request t url params) (OtherError info))).
Proof.
  intros H url params. split.
  - intros me Hg. unfold get_meta_whoami, catching, and_then.
    rewrite (metaGet_with_token _ _ _ _ _ _ H). cbn [with_access_token String.eqb].
    cbn. fold url. fold params. rewrite Hg. reflexivity.
  - intros info Hg. unfold get_meta_whoami, catching, and_then.
    rewrite (metaGet_with_token _ _ _ _ _ _ H). cbn.
    fold url. fold params. rewrite Hg. reflexivity.
Qed.

Lemma get_meta_whoami_with_token_witness :
  getMetaToken Examples.with_fallback_key = Ok "fb-token" /\
  get_meta_whoami Examples.with_fallback_key Examples.services_up Examples.quiet
  = (Ok (mkReply 200 (JsObject [("ok", JsBool true);
                                ("me", JsObject [("id", JsString "42");
                                                 ("name", JsString "Finley")])])),
     mkTrace [("https://graph.facebook.com/v18.0/me",
               [("fields", JsString "id,name"); ("access_token", JsString "fb-token")])]
             [] []) /\
  fst (get_meta_whoami Examples.with_fallback_key Examples.services_graph_down
                       Examples.quiet)
  = Ok (meta_failure
          (JsObject [("error", JsObject [("message",
                                          JsString "Invalid OAuth access token")])])).
Proof.
  assert (getMetaToken Examples.with_fallback_key = Ok "fb-token") as H by reflexivity.
  split; [exact H |]. split.
  - exact (proj1 (get_meta_whoami_with_token Examples.with_fallback_key
                    Examples.services_up Examples.quiet "fb-token" H)
                 _ eq_refl).
  - rewrite (proj2 (get_meta_whoami_with_token Examples.with_fallback_key
                      Examples.services_graph_down Examples.quiet "fb-token" H)
                   _ eq_refl).
    reflexivity.
Defined.

Lemma or_empty_data_with_token (env : ProcessEnv) (svc : Services) (path : string)
    (params : list (string * JsValue)) (t : Trace) (token : string) :
  getMetaToken env = Ok token ->
  exists found,
    or_empty_data (metaGet env svc path params) t
    = (Ok found,
       with_graph_request t ("https://graph.facebook.com/v18.0" ++ path)
                          (with_access_token params (JsString token))) /\
    js_or (optional_data found) (JsArray [])
    = listing (graph_get svc ("https://graph.facebook.com/v18.0" ++ path)
                         (with_access_token params (JsString token))).
Proof.
  intro H. unfold or_empty_data, catching.
  rewrite (metaGet_with_token _ _ _ _ _ _ H).
  destruct (graph_get svc ("https://graph.facebook.com/v18.0" ++ path)
                      (with_access_token params (JsString token))) as [d | e].
  - exists d. split; reflexivity.
  - eexists. split; reflexivity.
Qed.

(** X19. [assets] never answers with an error and never logs one: with a
    token it sends the three requests (businesses, ad accounts, pages, in
    that order, each with the token) and answers 200 with, for each, the
    [data] of the payload when that is truthy and the empty list when it
    is not or when the request failed. *)
Theorem get_meta_assets_with_token (env : ProcessEnv) (svc : Services) (t : Trace)
    (token : string) :
  getMetaToken env = Ok token ->
  let base := "https://graph.facebook.com/v18.0" in
  let names := [("fields", JsString "id,name"); ("access_token", JsString token)] in
  let accounts := [("fields", JsString "id,name,account_status");
                   ("access_token", JsString token)] in
  get_meta_assets env svc t
  = (Ok (mkReply 200 (JsObject
           [("ok", JsBool true);
            ("businesses", listing (graph_get svc (base ++ "/me/businesses") names));
            ("adaccounts", listing (graph_get svc (base ++ "/me/adaccounts") accounts));
            ("pages", listing (graph_get svc (base ++ "/me/accounts") names))])),
     mkTrace (graph_requests t ++ [(base ++ "/me/businesses", names);
                                   (base ++ "/me/adaccounts", accounts);
                                   (base ++ "/me/accounts", names)])
             (db_calls t) (logged t)).
Proof.
  intros H base names accounts.
  destruct (or_empty_data_with_token env svc "/me/businesses"
              [("fields", JsString "id,name")] t token H) as (b & Eb & Lb).
  set (t1 := with_graph_request t _ _) in Eb.
  destruct (or_empty_data_with_token env svc "/me/adaccounts"
              [("fields", JsString "id,name,account_status")] t1 token H)
    as (a & Ea & La).
  set (t2 := with_graph_request t1 _ _) in Ea.
  destruct (or_empty_data_with_token env svc "/me/accounts"
              [("fields", JsString "id,name")] t2 token H) as (p & Ep & Lp).
  unfold get_meta_assets, catching, and_then.
  rewrite Eb, Ea, Ep. unfold pure. rewrite Lb, La, Lp.
  unfold t2, t1, with_graph_request. cbn [graph_requests db_calls logged].
  rewrite <- !app_assoc. reflexivity.
Qed.

Lemma get_meta_assets_with_token_witness :
  getMetaToken Examples.with_fallback_key = Ok "fb-token" /\
  fst (get_meta_assets Examples.with_fallback_key Examples.services_up Examples.quiet)
  = Ok (mkReply 200 (JsObject
          [("ok", JsBool true);
           ("businesses", JsArray []);
           ("adaccounts", JsArray []);
           ("pages", JsArray [JsObject [("id", JsString "17");
                                        ("name", JsString "Shop")]])])).
Proof.
  assert (getMetaToken Examples.with_fallback_key = Ok "fb-token") as H by reflexivity.
  split; [exact H |].
  rewrite (get_meta_assets_with_token Examples.with_fallback_key Examples.services_up
             Examples.quiet "fb-token" H).
  reflexivity.
Defined.

(** ** Lead and ticket intake *)

(** X20. Validation comes before persistence.  When the schema rejects the
    body, the three intake handlers answer 400 "Invalid request" with the
    errors of the schema as [details]; the database is not called and
    nothing is logged. *)
Theorem intake_rejects_invalid_body (svc : Services) (request_body errors : JsValue)
    (text id : string) (t : Trace) :
  (CreateLeadSchema_parse svc request_body = Err (ZodError errors text) ->
   post_leads svc request_body t = (Ok (invalid_request errors), t)) /\
  (UpdateLeadStatusSchema_parse svc request_body = Err (ZodError errors text) ->
   patch_lead svc id request_body t = (Ok (invalid_request errors), t)) /\
  (CreateTicketSchema_parse svc request_body = Err (ZodError errors text) ->
   post_tickets svc request_body t = (Ok (invalid_request errors), t)).
Proof.
  split; [| split]; intro H.
  - unfold post_leads, catching, and_then, of_result. rewrite H. reflexivity.
  - unfold patch_lead, catching, and_then, of_result. rewrite H. reflexivity.
  - unfold post_tickets, catching, and_then, of_result. rewrite H. reflexivity.
Qed.

Lemma intake_rejects_invalid_body_witness :
  post_leads Examples.services_up (JsObject [("notes", JsString "call back")])
             Examples.quiet
  = (Ok (invalid_request
           (JsArray [JsObject [("path", JsArray [JsString "companyName"]);
                               ("message", JsString "Required")]])),
     Examples.quiet) /\
  patch_lead Examples.services_up "lead-7" JsNull Examples.quiet
  = (Ok (invalid_request
           (JsArray [JsObject [("path", JsArray [JsString "status"]);
                               ("message", JsString "Required")]])),
     Examples.quiet) /\
  post_tickets Examples.services_up (JsString "help") Examples.quiet
  = (Ok (invalid_request
           (JsArray [JsObject [("path", JsArray [JsString "summary"]);
                               ("message", JsString "Required")]])),
     Examples.quiet).
Proof.
  split; [| split].
  - exact (proj1 (intake_rejects_invalid_body Examples.services_up
                    (JsObject [("notes", JsString "call back")]) _ "Required" ""
                    Examples.quiet) eq_refl).
  - exact (proj1 (proj2 (intake_rejects_invalid_body Examples.services_up
                    JsNull _ "Required" "lead-7" Examples.quiet)) eq_refl).
  - exact (proj2 (proj2 (intake_rejects_invalid_body Examples.services_up
                    (JsString "help") _ "Required" "" Examples.quiet)) eq_refl).
Defined.

(** X21. A valid body leads to exactly one call of the database, and the
    record starts in a fixed status whatever the request said: a lead is
    created with the four fields of the parsed body and status "new", a
    ticket with its five fields and status "open", and a lead update
    writes only [status], for the id of the path.  The reply is 200 with
    the row the database returned, and nothing is logged. *)
Theorem intake_persists_valid_body (svc : Services) (request_body row : JsValue)
    (id : string) (t : Trace) :
  (forall body,
     CreateLeadSchema_parse svc request_body = Ok body ->
     prisma svc (LeadCreate (lead_row body)) = Ok row ->
     post_leads svc request_body t
     = (Ok (mkReply 200 row), with_db_call t (LeadCreate (lead_row body)))) /\
  (forall body,
     UpdateLeadStatusSchema_parse svc request_body = Ok body ->
     prisma svc (LeadUpdate id [("status", new_status body)]) = Ok row ->
     patch_lead svc id request_body t
     = (Ok (mkReply 200 row),
        with_db_call t (LeadUpdate id [("status", new_status body)]))) /\
  (forall body,
     CreateTicketSchema_parse svc request_body = Ok body ->
     prisma svc (TicketCreate (ticket_row body)) = Ok row ->
     post_tickets svc request_body t
     = (Ok (mkReply 200 row), with_db_call t (TicketCreate (ticket_row body)))).
Proof.
  split; [| split]; intros body H Hdb.
  - unfold post_leads, catching, and_then, of_result, prisma_call. rewrite H.
    fold (lead_row body). rewrite Hdb. reflexivity.
  - unfold patch_lead, catching, and_then, of_result, prisma_call. rewrite H, Hdb.
    reflexivity.
  - unfold post_tickets, catching, and_then, of_result, prisma_call. rewrite H.
    fold (ticket_row body). rewrite Hdb. reflexivity.
Qed.

Lemma intake_persists_valid_body_witness :
  post_leads Examples.services_up Examples.acme_lead Examples.quiet
  = (Ok (mkReply 200
           (JsObject [("id", JsString "lead-1");
                      ("companyName", JsString "Acme");
                      ("contactEmail", JsString "a@acme.test");
                      ("notes", JsUndefined);
                      ("source", JsUndefined);
                      ("status", JsString "new")])),
     mkTrace []
       [LeadCreate [("companyName", JsString "Acme");
                    ("contactEmail", JsString "a@acme.test");
                    ("notes", JsUndefined);
                    ("source", JsUndefined);
                    ("status", JsString "new")]]
       []).
Proof.
  exact (proj1 (intake_persists_valid_body Examples.services_up Examples.acme_lead
                  _ "" Examples.quiet)
               (mkLeadInput (JsString "Acme") (JsString "a@acme.test")
                            JsUndefined JsUndefined)
               eq_refl eq_refl).
Defined.

(** X22. A failure of the database is masked.  When the call fails with an
    error that is not a schema error, the intake handlers answer 500 with
    the fixed body "Internal server error", which carries nothing of the
    error, and give the error to the log; the call was made once. *)
Theorem intake_masks_database_failure (svc : Services) (request_body : JsValue)
    (id : string) (info : ErrorInfo) (t : Trace) :
  (forall body,
     CreateLeadSchema_parse svc request_body = Ok body ->
     prisma svc (LeadCreate (lead_row body)) = Err (OtherError info) ->
     post_leads svc request_body t
     = (Ok internal_server_error,
        with_logged (with_db_call t (LeadCreate (lead_row body))) (OtherError info))) /\
  (forall body,
     UpdateLeadStatusSchema_parse svc request_body = Ok body ->
     prisma svc (LeadUpdate id [("status", new_status body)]) = Err (OtherError info) ->
     patch_lead svc id request_body t
     = (Ok internal_server_error,
        with_logged (with_db_call t (LeadUpdate id [("status", new_status body)]))
                    (OtherError info))) /\
  (forall body,
     CreateTicketSchema_parse svc request_body = Ok body ->
     prisma svc (TicketCreate (ticket_row body)) = Err (OtherError info) ->
     post_tickets svc request_body t
     = (Ok internal_server_error,
        with_logged (with_db_call t (TicketCreate (ticket_row body))) (OtherError info))).
Proof.
  split; [| split]; intros body H Hdb.
  - unfold post_leads, catching, and_then, of_result, prisma_call. rewrite H.
    fold (lead_row body). rewrite Hdb. reflexivity.
  - unfold patch_lead, catching, and_then, of_result, prisma_call. rewrite H, Hdb.
    reflexivity.
  - unfold post_tickets, catching, and_then, of_result, prisma_call. rewrite H.
    fold (ticket_row body). rewrite Hdb. reflexivity.
Qed.

Lemma intake_masks_database_failure_witness :
  post_tickets Examples.services_db_down
               (JsObject [("summary", JsString "Printer on fire");
                          ("priority", JsString "high")])
               Examples.quiet
  = (Ok internal_server_error,
     mkTrace []
       [TicketCreate [("priority", JsString "high");
                      ("summary", JsString "Printer on fire");
                      ("details", JsUndefined);
                      ("sessionId", JsUndefined);
                      ("leadId", JsUndefined);
                      ("status", JsString "open")]]
       [Examples.db_unreachable]).
Proof.
  exact (proj2 (proj2 (intake_masks_database_failure Examples.services_db_down
                         (JsObject [("summary", JsString "Printer on fire");
                                    ("priority", JsString "high")])
                         "" (mkErrorInfo "Can't reach database server" JsUndefined)
                         Examples.quiet))
               (mkTicketInput (JsString "high") (JsString "Printer on fire")
                              JsUndefined JsUndefined JsUndefined)
               eq_refl eq_refl).
Defined.

End Routes.

(** * Properties in binary64 arithmetic *)

Section Binary64Engine.

Import Binary64.
Import Binary64.RevenueTracker.
Import Binary64.BudgetUpdater.

(** ** Rounding of the limits *)

Lemma Math_round_rounds_product (product : double) :
  rounds_product product (Binary64.Math_round product).
Proof.
  split; [reflexivity |].
  destruct product as [s | s | | s m e]; cbn [is_finite]; intro H;
    try discriminate.
  - exists 0%Z. split; [| reflexivity].
    unfold rounds_half_up. cbn. split; [discriminate | reflexivity].
  - exists (Qfloor (value (S754_finite s m e) + (1 # 2))). split.
    + exact (Math_round_half_up (value (S754_finite s m e))).
    + reflexivity.
Qed.

(** C6, as the code has it.  For every revenue, each limit of
    [calculateBudgetLimits] is [Math.round] of the double product of the
    base limit of the fixed table (executive 300; finance cost-optimization
    150, allocation 300; infrastructure 150) and the scale factor: the
    computed product, not the exact one, rounded half up.  Revenue 2000
    gives scale 2 and the limits 600, 300, 600 and 300; revenue 1005 gives
    301, 151, 301 and 151. *)
Theorem calculateBudgetLimits_rounds_double_product :
  (forall r : double,
     let s := calculateScaleFactor r in
     let limits := calculateBudgetLimits r in
     rounds_product (mul (of_Z 300) s) (maxSpending (ceo limits)) /\
     rounds_product (mul (of_Z 150) s) (maxCostOptimization (cfo limits)) /\
     rounds_product (mul (of_Z 300) s) (maxBudgetAllocation (cfo limits)) /\
     rounds_product (mul (of_Z 150) s) (maxInfrastructureCost (cto limits))) /\
  calculateScaleFactor (of_Z 2000) = of_Z 2 /\
  calculateBudgetLimits (of_Z 2000)
  = mkBudgetLimits (mkCeo (of_Z 600)) (mkCfo (of_Z 300) (of_Z 600)) (mkCto (of_Z 300)) /\
  calculateBudgetLimits (of_Z 1005)
  = mkBudgetLimits (mkCeo (of_Z 301)) (mkCfo (of_Z 151) (of_Z 301)) (mkCto (of_Z 151)).
Proof.
  split; [| split; [| split]]; [| vm_compute; reflexivity ..].
  intros r s limits. unfold limits, calculateBudgetLimits. fold s.
  change (maxSpending (ceo baseBudgets)) with (of_Z 300).
  change (maxCostOptimization (cfo baseBudgets)) with (of_Z 150).
  change (maxBudgetAllocation (cfo baseBudgets)) with (of_Z 300).
  change (maxInfrastructureCost (cto baseBudgets)) with (of_Z 150).
  cbn [ceo cfo cto maxSpending maxCostOptimization maxBudgetAllocation
       maxInfrastructureCost].
  repeat split; apply Math_round_rounds_product.
Qed.

Lemma calculateBudgetLimits_rounds_double_product_witness :
  is_finite (mul (of_Z 300) (calculateScaleFactor (of_Z 1005))) = true /\
  exists n : Z,
    rounds_half_up (value (mul (of_Z 300) (calculateScaleFactor (of_Z 1005)))) n /\
    maxSpending (ceo (calculateBudgetLimits (of_Z 1005)))
    = integral (sign_of (mul (of_Z 300) (calculateScaleFactor (of_Z 1005)))) n.
Proof.
  assert (is_finite (mul (of_Z 300) (calculateScaleFactor (of_Z 1005))) = true) as H
    by (vm_compute; reflexivity).
  split; [exact H |].
  destruct (proj1 calculateBudgetLimits_rounds_double_product (of_Z 1005))
    as ((_ & Hn) & _).
  exact (Hn H).
Defined.

(** C6, as stated, fails.  At revenue 1005 the executive limit is 301, and
    301 is not 300 * 1.005 = 301.5 rounded half up, which is 302: the
    double product is just below 301.5.  Reading the scale factor as the
    double the calculator returned does not save it: at revenue 1025 the
    limit is 308, and 300 times that double is just below 307.5, which
    rounds half up to 307. *)
Lemma calculateBudgetLimits_differs_from_exact_rounding :
  maxSpending (ceo (calculateBudgetLimits (of_Z 1005))) = of_Z 301 /\
  value (of_Z 1005) == 1005 /\ value (of_Z 301) == 301 /\
  ~ rounds_half_up (300 * (1005 / 1000)) 301 /\
  rounds_half_up (300 * (1005 / 1000)) 302 /\
  maxSpending (ceo (calculateBudgetLimits (of_Z 1025))) = of_Z 308 /\
  value (of_Z 308) == 308 /\
  ~ rounds_half_up (300 * value (calculateScaleFactor (of_Z 1025))) 308 /\
  rounds_half_up (300 * value (calculateScaleFactor (of_Z 1025))) 307.
Proof.
  split; [vm_compute; reflexivity |].
  split; [vm_compute; reflexivity |].
  split; [vm_compute; reflexivity |].
  split; [intros [_ H]; vm_compute in H; discriminate |].
  split; [split; vm_compute; [discriminate | reflexivity] |].
  split; [vm_compute; reflexivity |].
  split; [vm_compute; reflexivity |].
  split; [intros [H _]; vm_compute in H; apply H; reflexivity |].
  split; vm_compute; [discriminate | reflexivity].
Qed.

(** ** The updater *)

Lemma fetchRevenueData_returns64 (h : Host) (u : option string) (w : World) :
  exists snapshot w',
    fetchRevenueData h u w = (Returned snapshot, w') /\
    lastUpdateDate w' = lastUpdateDate w.
Proof.
  unfold fetchRevenueData, try_catch, bind, await_get.
  destruct (axios_get h _) as [text | response].
  - do 2 eexists. split; reflexivity.
  - destruct (Z.eqb (status response) 200); cbn.
    + destruct (data response) as [| | [f |]]; cbn;
        do 2 eexists; split; reflexivity.
    + do 2 eexists. split; reflexivity.
Qed.

Lemma generateRevenueReport_run64 (h : Host) (w : World) :
  exists snapshot texts w',
    generateRevenueReport h w
    = (Returned (mkReport snapshot (calculateScaleFactor (totalMRR snapshot))
                          (calculateBudgetLimits (totalMRR snapshot)) texts), w') /\
    lastUpdateDate w' = lastUpdateDate w.
Proof.
  destruct (fetchRevenueData_returns64 h None w) as (snapshot & w' & E & Hd).
  exists snapshot. eexists. exists w'. split; [| exact Hd].
  unfold generateRevenueReport, bind. rewrite E. reflexivity.
Qed.

Lemma updateBudgets_body_returned64 (tracker_report : Async RevenueReport) (h : Host)
    (w w1 : World) (report : RevenueReport) :
  tracker_report w = (Returned report, w1) ->
  exists w',
    updateBudgets_body tracker_report h w = (Returned (result_of64 report), w') /\
    (lastUpdateDate w' = lastUpdateDate w1 \/
     lastUpdateDate w' = Some (split_head "T" (Date_toISOString h))).
Proof.
  intro H. unfold updateBudgets_body, try_catch, bind. rewrite H.
  unfold read_lastUpdateDate.
  destruct (same_date (lastUpdateDate w1) (split_head "T" (Date_toISOString h))
            && le (RevenueTracker.scaleFactor report) threshold).
  - eexists. split; [reflexivity |]. left. reflexivity.
  - eexists. split; [reflexivity |]. right. reflexivity.
Qed.

Lemma updateBudgets_body_value64 (tracker_report : Async RevenueReport) (h : Host)
    (w w1 : World) (message : option string) :
  tracker_report w = (Threw (ThrownValue message), w1) ->
  updateBudgets_body tracker_report h w = (Returned (failure_result64 message), w1).
Proof.
  intro H. unfold updateBudgets_body, try_catch, bind. rewrite H. reflexivity.
Qed.

Lemma updateBudgets_body_nullish64 (tracker_report : Async RevenueReport) (h : Host)
    (w w1 : World) (v : Thrown) :
  tracker_report w = (Threw v, w1) ->
  v = ThrownNull \/ v = ThrownUndefined ->
  exists text, updateBudgets_body tracker_report h w = (Threw (new_Error text), w1).
Proof.
  intros H [-> | ->]; unfold updateBudgets_body, try_catch, bind; rewrite H;
    eexists; reflexivity.
Qed.

(** C10, as the code has it.  Every result of [updateBudgets] has budgets
    that agree with its scale factor in the arithmetic of the code: each
    limit is [Math.round] of the double product of the base limit of the
    fixed table and the scale factor of the same result, that is the
    computed product rounded half up.  This holds when the update is
    applied and when it is throttled, which are the results of the updater
    as constructed, and for the failure result, whose hardcoded budgets are
    the base table, the table at scale factor 1. *)
Theorem updateBudgets_budgets_at_scale :
  (forall (h : Host) (w : World),
     exists result w',
       updateBudgets h w = (Returned result, w') /\
       budgets result = limits_at_scale (scaleFactor result)) /\
  (forall (tracker_report : Async RevenueReport) (h : Host) (w w1 : World)
          (message : option string),
     tracker_report w = (Threw (ThrownValue message), w1) ->
     exists result,
       updateBudgets_body tracker_report h w = (Returned result, w1) /\
       success result = false /\
       budgets result = baseBudgets /\
       scaleFactor result = of_Z 1 /\
       budgets result = limits_at_scale (scaleFactor result)) /\
  (forall s : double,
     rounds_product (mul (of_Z 300) s) (maxSpending (ceo (limits_at_scale s))) /\
     rounds_product (mul (of_Z 150) s) (maxCostOptimization (cfo (limits_at_scale s))) /\
     rounds_product (mul (of_Z 300) s) (maxBudgetAllocation (cfo (limits_at_scale s))) /\
     rounds_product (mul (of_Z 150) s)
                    (maxInfrastructureCost (cto (limits_at_scale s)))).
Proof.
  split; [| split].
  - intros h w.
    destruct (generateRevenueReport_run64 h w) as (snapshot & texts & w1 & E & _).
    destruct (updateBudgets_body_returned64 _ h _ _ _ E) as (w' & U & _).
    eexists. exists w'. split; [exact U |]. reflexivity.
  - intros tracker_report h w w1 message H.
    exists (failure_result64 message).
    split; [exact (updateBudgets_body_value64 _ _ _ _ _ H) |].
    split; [reflexivity |]. split; [reflexivity |]. split; [reflexivity |].
    vm_compute. reflexivity.
  - intro s. unfold limits_at_scale.
    cbn [ceo cfo cto maxSpending maxCostOptimization maxBudgetAllocation
         maxInfrastructureCost].
    repeat split; apply Math_round_rounds_product.
Qed.

Lemma updateBudgets_budgets_at_scale_witness :
  exists result,
    updateBudgets_body (throw (new_Error "socket hang up"))
                       (example_host64 (network_mrr64 1005) morning) updated_yesterday
    = (Returned result, updated_yesterday) /\
    success result = false /\
    budgets result = baseBudgets /\
    scaleFactor result = of_Z 1 /\
    budgets result = limits_at_scale (scaleFactor result).
Proof.
  exact (proj1 (proj2 updateBudgets_budgets_at_scale)
               (throw (new_Error "socket hang up"))
               (example_host64 (network_mrr64 1005) morning)
               updated_yesterday updated_yesterday (Some "socket hang up") eq_refl).
Defined.

(** C10, as stated, fails.  With a monthly revenue of 1025 the result has
    the scale factor 1025 / 1000 as a double and the executive limit 308;
    300 times that scale factor is just below 307.5 and rounds half up to
    307.  With 1005 the limit is 301, and 300 * 1.005 = 301.5 rounds half
    up to 302. *)
Lemma updateBudgets_budgets_differ_from_exact_rounding :
  fst (updateBudgets (example_host64 (network_mrr64 1025) morning) never_updated)
  = Returned (mkResult true
                (mkBudgetLimits (mkCeo (of_Z 308)) (mkCfo (of_Z 154) (of_Z 308))
                                (mkCto (of_Z 154)))
                (div (of_Z 1025) (of_Z 1000)) (of_Z 1025) None) /\
  value (of_Z 308) == 308 /\
  ~ rounds_half_up (300 * value (div (of_Z 1025) (of_Z 1000))) 308 /\
  rounds_half_up (300 * value (div (of_Z 1025) (of_Z 1000))) 307 /\
  fst (updateBudgets (example_host64 (network_mrr64 1005) morning) never_updated)
  = Returned (mkResult true
                (mkBudgetLimits (mkCeo (of_Z 301)) (mkCfo (of_Z 151) (of_Z 301))
                                (mkCto (of_Z 151)))
                (div (of_Z 1005) (of_Z 1000)) (of_Z 1005) None) /\
  value (of_Z 301) == 301 /\
  ~ rounds_half_up (300 * (1005 / 1000)) 301.
Proof.
  split; [vm_compute; reflexivity |].
  split; [vm_compute; reflexivity |].
  split; [intros [H _]; vm_compute in H; apply H; reflexivity |].
  split; [split; vm_compute; [discriminate | reflexivity] |].
  split; [vm_compute; reflexivity |].
  split; [vm_compute; reflexivity |].
  intros [_ H]. vm_compute in H. discriminate.
Qed.

(** X7. [updateBudgets] returns a result whenever its report step returns
    or throws a value other than [null] and [undefined]: in the second
    case the failure result, with the [message] of the value as [error].
    When the report step throws [null] or [undefined], reading
    [error.message] in the [catch] block throws a [TypeError], and
    [updateBudgets] itself throws, leaving the world as the step left
    it. *)
Theorem updateBudgets_body_throws_on_nullish
    (tracker_report : Async RevenueReport) (h : Host) (w w1 : World) :
  (forall report,
     tracker_report w = (Returned report, w1) ->
     exists w',
       updateBudgets_body tracker_report h w = (Returned (result_of64 report), w')) /\
  (forall message,
     tracker_report w = (Threw (ThrownValue message), w1) ->
     updateBudgets_body tracker_report h w
     = (Returned (failure_result64 message), w1)) /\
  (forall v,
     tracker_report w = (Threw v, w1) ->
     v = ThrownNull \/ v = ThrownUndefined ->
     exists text,
       updateBudgets_body tracker_report h w = (Threw (new_Error text), w1)).
Proof.
  split; [| split].
  - intros report H.
    destruct (updateBudgets_body_returned64 _ h _ _ _ H) as (w' & U & _). eauto.
  - intros message H. exact (updateBudgets_body_value64 _ _ _ _ _ H).
  - intros v H Hv. exact (updateBudgets_body_nullish64 _ _ _ _ _ H Hv).
Qed.

Lemma updateBudgets_body_throws_on_nullish_witness :
  updateBudgets_body (throw ThrownNull) (example_host64 (network_mrr64 1005) morning)
                     updated_yesterday
  = (Threw (new_Error "Cannot read properties of null (reading 'message')"),
     updated_yesterday) /\
  updateBudgets_body (throw (ThrownValue None))
                     (example_host64 (network_mrr64 1005) morning) updated_yesterday
  = (Returned (failure_result64 None), updated_yesterday).
Proof.
  split.
  - destruct (proj2 (proj2 (updateBudgets_body_throws_on_nullish
                              (throw ThrownNull)
                              (example_host64 (network_mrr64 1005) morning)
                              updated_yesterday updated_yesterday))
                    ThrownNull eq_refl (or_introl eq_refl)) as (text & E).
    rewrite E. vm_compute in E. injection E as <-. reflexivity.
  - exact (proj1 (proj2 (updateBudgets_body_throws_on_nullish
                           (throw (ThrownValue None))
                           (example_host64 (network_mrr64 1005) morning)
                           updated_yesterday updated_yesterday))
                 None eq_refl).
Defined.

(** X11. [runDailyUpdate] has no [try]: after announcing the run it throws
    exactly when [updateBudgets] does, that is when the report step throws
    [null] or [undefined], and then writes nothing more.  When the report
    step throws another value it writes one [console.error] line with the
    message of the value and changes nothing else; when the step returns,
    the run completes. *)
Theorem runDailyUpdate_body_throws_on_nullish
    (tracker_report : Async RevenueReport) (h : Host) (w w1 : World) :
  let announced := with_log_line w "🔄 Running daily budget update..." in
  (forall report,
     tracker_report announced = (Returned report, w1) ->
     exists w', runDailyUpdate_body tracker_report h w = (Returned tt, w')) /\
  (forall message,
     tracker_report announced = (Threw (ThrownValue message), w1) ->
     runDailyUpdate_body tracker_report h w
     = (Returned tt,
        with_error_line w1 ("❌ Budget update failed: " ++ shown message))) /\
  (forall v,
     tracker_report announced = (Threw v, w1) ->
     v = ThrownNull \/ v = ThrownUndefined ->
     exists text,
       runDailyUpdate_body tracker_report h w = (Threw (new_Error text), w1)).
Proof.
  intro announced.
  assert (runDailyUpdate_body tracker_report h w
          = match updateBudgets_body tracker_report h announced with
            | (Returned result, w') =>
                (if success result then
                   bind (console_log "✅ Budgets updated successfully") (fun _ =>
                   bind (console_log ("   Scale Factor: "
                                      ++ Number_toFixed h (scaleFactor result) 2
                                      ++ "x")) (fun _ =>
                   console_log ("   Revenue: $"
                                ++ Number_toLocaleString h (revenue result)
                                ++ "/month")))
                 else
                   console_error ("❌ Budget update failed: "
                                  ++ shown (error result))) w'
            | (Threw v, w') => (Threw v, w')
            end) as Hrun by reflexivity.
  rewrite Hrun. split; [| split].
  - intros report H.
    destruct (updateBudgets_body_returned64 _ h _ _ _ H) as (w' & U & _).
    rewrite U. unfold result_of64. cbn [success].
    eexists. reflexivity.
  - intros message H. rewrite (updateBudgets_body_value64 _ _ _ _ _ H).
    reflexivity.
  - intros v H Hv.
    destruct (updateBudgets_body_nullish64 _ h _ _ _ H Hv) as (text & U).
    rewrite U. exists text. reflexivity.
Qed.

Lemma runDailyUpdate_body_throws_on_nullish_witness :
  runDailyUpdate_body (throw ThrownUndefined)
                      (example_host64 (network_mrr64 1005) morning) updated_yesterday
  = (Threw (new_Error "Cannot read properties of undefined (reading 'message')"),
     mkWorld (Some "2024-02-29") [ConsoleLog "🔄 Running daily budget update..."]) /\
  runDailyUpdate_body (throw (new_Error "socket hang up"))
                      (example_host64 (network_mrr64 1005) morning) updated_yesterday
  = (Returned tt,
     mkWorld (Some "2024-02-29")
       [ ConsoleLog "🔄 Running daily budget update...";
         ConsoleError "❌ Budget update failed: socket hang up" ]).
Proof.
  split.
  - destruct (proj2 (proj2 (runDailyUpdate_body_throws_on_nullish
                              (throw ThrownUndefined)
                              (example_host64 (network_mrr64 1005) morning)
                              updated_yesterday _))
                    ThrownUndefined eq_refl (or_intror eq_refl)) as (text & E).
    rewrite E. vm_compute in E. injection E as <-. reflexivity.
  - exact (proj1 (proj2 (runDailyUpdate_body_throws_on_nullish
                           (throw (new_Error "socket hang up"))
                           (example_host64 (network_mrr64 1005) morning)
                           updated_yesterday _))
                 (Some "socket hang up") eq_refl).
Defined.

End Binary64Engine.
